(** * cbir-deep-learning: the document builder of [app.py]

    A shallow embedding of [create_docs], of the forward hook returned by
    [get_features] and of the [__main__] block of [app.py], together with the
    Python primitives they rely on ([str.find], slicing, [os.path.join],
    exceptions, module globals).

    Layout:
    - module [PyStr]: [str.find], [s[a:b]] and POSIX [os.path.join];
    - module [Py]: exceptions and the state-and-exception monad of a run;
    - section [Arrays]: arrays as lists of rows,
      [np.concatenate(..., axis=None)], scikit-learn's [PCA.transform];
    - section [Torch]: datasets, [DataLoader] batching, models with forward
      hooks;
    - section [App]: the module state, [create_docs], [get_features], [main];
    - section [ModelsUtils]: [predict] and [label_to_vector], which the
      repository keeps in [models/utils.py];
    - module [Demo]: a small file system, network and projection to run the
      definitions on;
    - the lemmas on strings and on the loop, then one block per property. *)

From Stdlib Require Import ZArith Ascii String List Bool Lia.
From stdpp Require Import base option list strings gmap.

Local Open Scope nat_scope.

(* ===================================================================== *)
(** ** Python strings *)
(* ===================================================================== *)

Module PyStr.

(** [s.find(c)] for a one-character needle [c]: the index of the first
    occurrence, or [-1].  [i] is the index of the head of [s]. *)
Fixpoint find_from (c : ascii) (s : string) (i : Z) : Z :=
  match s with
  | EmptyString => (-1)%Z
  | String a s' => if Ascii.eqb a c then i else find_from c s' (i + 1)%Z
  end.

Definition find (s : string) (c : ascii) : Z := find_from c s 0%Z.

(** How CPython turns a slice bound into an offset of a sequence of length
    [n]: a negative bound counts from the end, and everything is clipped to
    [0..n]. *)
Definition clip (n i : Z) : Z :=
  if (i <? 0)%Z then Z.max (i + n) 0 else Z.min i n.

(** [s[lo:hi]], step 1.  An empty range gives the empty string; a slice
    never raises. *)
Definition slice (s : string) (lo hi : Z) : string :=
  let n := Z.of_nat (String.length s) in
  let a := clip n lo in
  let b := clip n hi in
  substring (Z.to_nat a) (Z.to_nat (b - a)) s.

(** [c in s]. *)
Fixpoint contains (c : ascii) (s : string) : bool :=
  match s with
  | EmptyString => false
  | String a s' => Ascii.eqb a c || contains c s'
  end.

(** [s.startswith(c)] and [s.endswith(c)] for a one-character [c]. *)
Definition startswith (s : string) (c : ascii) : bool :=
  match s with
  | String a _ => Ascii.eqb a c
  | EmptyString => false
  end.

Fixpoint endswith (s : string) (c : ascii) : bool :=
  match s with
  | EmptyString => false
  | String a EmptyString => Ascii.eqb a c
  | String _ s' => endswith s' c
  end.

(** [s[:-1]] spelled out: the string without its last character. *)
Fixpoint drop_last (s : string) : string :=
  match s with
  | EmptyString => EmptyString
  | String _ EmptyString => EmptyString
  | String a s' => String a (drop_last s')
  end.

(** [posixpath.join(a, b)] for two components. *)
Definition os_path_join (a b : string) : string :=
  if startswith b "/" then b
  else if (String.length a =? 0) || endswith a "/" then a +:+ b
  else a +:+ "/" +:+ b.

End PyStr.

(* ===================================================================== *)
(** ** Exceptions and the monad of a run *)
(* ===================================================================== *)

Module Py.

(** The exceptions that occur in the program and in the libraries it calls.
    [sys.exit(n)] raises [SystemExit n]; left uncaught at top level it ends
    the process with status [n]. *)
Inductive Exception : Type :=
  | NameError (name : string)
  | KeyError (key : string)
  | IndexError
  | ValueError (msg : string)
  | OSError (path : string)
  | RuntimeError (msg : string)
  | SystemExit (code : Z).

Inductive Result (A : Type) : Type :=
  | Ok (a : A)
  | Raise (e : Exception).
Arguments Ok {A} a.
Arguments Raise {A} e.

(** A computation over the module state [S]: it returns or raises, and in
    both cases leaves a state behind. *)
Definition M (S A : Type) : Type := S -> Result A * S.

Definition ret {S A} (a : A) : M S A := fun s => (Ok a, s).

Definition raise {S A} (e : Exception) : M S A := fun s => (Raise e, s).

Definition bind {S A B} (c : M S A) (k : A -> M S B) : M S B :=
  fun s =>
    match c s with
    | (Ok a, s') => k a s'
    | (Raise e, s') => (Raise e, s')
    end.

(** A pure call that may raise. *)
Definition lift {S A} (r : Result A) : M S A := fun s => (r, s).

Definition gets {S A} (f : S -> A) : M S A := fun s => (Ok (f s), s).

Definition modify {S} (f : S -> S) : M S unit := fun s => (Ok tt, f s).

Definition is_ok {A} (r : Result A) : bool :=
  match r with Ok _ => true | Raise _ => false end.

End Py.

Import Py.

Declare Scope py_scope.
Delimit Scope py_scope with py.
Notation "'let*' x := c1 'in' c2" := (bind c1 (fun x => c2))
  (at level 10, x name, c1 at level 100, c2 at level 200) : py_scope.
Notation "c1 ;; c2" := (bind c1 (fun _ => c2))
  (at level 100, c2 at level 200, right associativity) : py_scope.
Local Open Scope py_scope.

(** The exit status of the interpreter for the outcome of the top-level
    script: an uncaught [SystemExit n] gives [n], any other uncaught
    exception gives 1, a normal end gives 0. *)
Definition exit_status {A} (r : Result A) : Z :=
  match r with
  | Ok _ => 0%Z
  | Raise (SystemExit n) => n
  | Raise _ => 1%Z
  end.

(* ===================================================================== *)
(** ** Arrays, PCA, datasets and models *)
(* ===================================================================== *)

(** The element type of arrays and the arithmetic on it.  No property below
    depends on the values computed, only on where they flow and on shapes. *)
Class FloatOps (F : Type) : Type := {
  f_zero : F;
  f_one : F;
  f_add : F -> F -> F;
  f_sub : F -> F -> F;
  f_mul : F -> F -> F
}.

Inductive Device : Type := Cuda | Cpu.

Definition device_str (d : Device) : string :=
  match d with Cuda => "cuda" | Cpu => "cpu" end.

Inductive Level : Type := INFO | ERROR.

Section Arrays.
Context {F : Type} `{FloatOps F}.

(** A two-dimensional array as the list of its rows.  The empty list also
    stands for the Python list [[]] that [hook_features] starts as. *)
Definition Ndarray : Type := list (list F).

(** [np.concatenate((a, b), axis=None)]: both arguments are flattened and
    then joined into one vector. *)
Definition np_concatenate (a : Ndarray) (b : list F) : list F :=
  concat a ++ b.

(** scikit-learn's fitted [PCA]: the mean of the training data and one
    component per output dimension. *)
Record PCA : Type := {
  mean_ : list F;
  components_ : list (list F)
}.

Definition n_features_in_ (p : PCA) : nat := length (mean_ p).

Definition dot (x y : list F) : F :=
  fold_right f_add f_zero (zip_with f_mul x y).

(** One row of [pca.transform]: centre, then project on each component. *)
Definition project (p : PCA) (x : list F) : list F :=
  map (dot (zip_with f_sub x (mean_ p))) (components_ p).

(** [pca.transform(X)]: input validation rejects an array without rows
    and an array whose width differs from the one seen when fitting. *)
Definition pca_transform (p : PCA) (X : Ndarray) : Result Ndarray :=
  match X with
  | [] => Raise (ValueError "Expected 2D array with at least 1 sample")
  | _ =>
    if forallb (fun row => length row =? n_features_in_ p) X
    then Ok (map (project p) X)
    else Raise (ValueError "X has a different number of features than PCA is expecting")
  end.
End Arrays.

Arguments Ndarray F : clear implicits.
Arguments PCA F : clear implicits.

Section Torch.
Context {F Image Tensor : Type}.

(** Modelled from the spec: the class [ImageDataset] of
    [models/image_dataset.py], a dataset over a list of decoded images that
    yields each image passed through the transformation pipeline
    (spec 4.1). *)
Record ImageDataset : Type := {
  ds_images : list Image;
  ds_transform : Image -> Tensor
}.

Definition dataset_items (d : ImageDataset) : list Tensor :=
  map (ds_transform d) (ds_images d).

(** [torch.utils.data.DataLoader(dataset, batch_size, shuffle)]. *)
Record DataLoader : Type := {
  dl_dataset : ImageDataset;
  batch_size : nat;
  shuffle : bool
}.

(** Cutting a list into consecutive batches of at most [size] items, the
    last one possibly shorter.  [room] is what is left in the batch [cur]
    being filled. *)
Fixpoint chunk (size room : nat) (cur : list Tensor) (l : list Tensor)
  : list (list Tensor) :=
  match l with
  | [] => match cur with [] => [] | _ => [cur] end
  | x :: l' =>
    match room with
    | 0 => cur :: chunk size (size - 1) [x] l'
    | S room' => chunk size room' (cur ++ [x]) l'
    end
  end.

(** The batches a loader yields when iterated without shuffling. *)
Definition batches (dl : DataLoader) : list (list Tensor) :=
  chunk (batch_size dl) (batch_size dl) [] (dataset_items (dl_dataset dl)).

(** A forward hook receives the input and the output of the layer it is
    attached to and acts on the state [S] of the program. *)
Definition Hook (S : Type) : Type := list Tensor -> Ndarray F -> S -> S.

(** A network seen from the layer the hooks are attached to: what that
    layer outputs for one image, and the hooks registered on it. *)
Record Model (S : Type) : Type := {
  layer_output : Tensor -> list F;
  forward_hooks : list (Hook S)
}.
Arguments layer_output {S} m.
Arguments forward_hooks {S} m.

(** [layer.register_forward_hook(h)]: hooks run in registration order. *)
Definition register_forward_hook {S} (m : Model S) (h : Hook S) : Model S :=
  {| layer_output := layer_output m;
     forward_hooks := forward_hooks m ++ [h] |}.

(** A forward pass over one batch: the hooked layer yields one row per
    image of the batch, and every hook is called with that output. *)
Definition forward {S} (m : Model S) (batch : list Tensor) : M S unit :=
  modify (fun s =>
    fold_left (fun s' h => h batch (map (layer_output m) batch) s')
              (forward_hooks m) s).
End Torch.

Arguments ImageDataset : clear implicits.
Arguments DataLoader : clear implicits.
Arguments Model : clear implicits.
Arguments Hook : clear implicits.
Arguments layer_output {F Tensor S} m.
Arguments forward_hooks {F Tensor S} m.

(* ===================================================================== *)
(** ** app.py *)
(* ===================================================================== *)

Section App.
Context {F Image Tensor : Type} `{FloatOps F}.

(** The module-level state of [app.py] that its functions read or write:
    the buffer [hook_features] (line 24), the name [device], which only the
    [__main__] block binds (line 135), and what went through [logger]. *)
Record World : Type := {
  hook_features : Ndarray F;
  device : option Device;
  log : list (Level * string)
}.

Definition set_hook_features (a : Ndarray F) (w : World) : World :=
  {| hook_features := a; device := device w; log := log w |}.

Definition set_device (d : Device) (w : World) : World :=
  {| hook_features := hook_features w; device := Some d; log := log w |}.

Definition add_log (l : Level) (msg : string) (w : World) : World :=
  {| hook_features := hook_features w; device := device w;
     log := log w ++ [(l, msg)] |}.

(** The state right after the module body above [__main__] has run. *)
Definition initial_world : World :=
  {| hook_features := []; device := None; log := [] |}.

Definition logger_error (msg : string) : M World unit := modify (add_log ERROR msg).
Definition logger_info (msg : string) : M World unit := modify (add_log INFO msg).

(** Reading a global name: [NameError] when it is not bound. *)
Definition global_device : M World Device :=
  fun w =>
    match device w with
    | Some d => (Ok d, w)
    | None => (Raise (NameError "device"), w)
    end.

(** The documents built by [create_docs] (lines 88-93); the keys of the
    dictionary are ['id'], ['filename'], ['path'] and ['features']. *)
Record Doc : Type := {
  doc_id : string;
  doc_filename : string;
  doc_path : string;
  doc_features : list F
}.

(** What the program sees of the file system: [os.path.isdir],
    [os.listdir], [PIL.Image.open], and the two saved artifacts read by
    [torch.load] (into the initialised network) and [joblib.load]. *)
Record FileSystem : Type := {
  isdir : string -> bool;
  listdir : string -> Result (list string);
  image_open : string -> Result Image;
  load_vgg16 : string -> Device -> Result (Model F Tensor World);
  joblib_load : string -> Result (option (PCA F))
}.

(** The two functions imported from [models.utils] (line 12). *)
Record Utils : Type := {
  predict : DataLoader Image Tensor -> Model F Tensor World -> Device -> M World unit;
  label_to_vector : string -> gmap string nat -> Result (list F)
}.

(** [get_features] (lines 99-108): the hook it returns stores the output
    of the layer in the global [hook_features].  [detach], [cpu] and
    [numpy] change where and how the values are held, not the values. *)
Definition get_features (_ : unit) : Hook F Tensor World :=
  fun _input output w => set_hook_features output w.

Section CreateDocs.
Variable fs : FileSystem.
Variable utils : Utils.

(** Line 81: the label part of a file name. *)
Definition label_str (file : string) : string :=
  PyStr.slice file (PyStr.find file "-" + 1) (PyStr.find file ".").

(** Line 89: the id part of a file name. *)
Definition id_str (file : string) : string :=
  PyStr.slice file 0 (PyStr.find file "-").

(** Lines 69-71: the loader built for one opened image. *)
Definition make_dataloader (image : Image) (transform : Image -> Tensor)
  : DataLoader Image Tensor :=
  {| dl_dataset := {| ds_images := [image]; ds_transform := transform |};
     batch_size := 64;
     shuffle := false |}.

(** Lines 64-93: the body of the loop for one directory entry. *)
Definition loop_body (directory : string) (model : Model F Tensor World)
    (pca : PCA F) (transform : Image -> Tensor)
    (mapping : gmap string nat) (file : string) : M World Doc :=
  let path := PyStr.os_path_join directory file in
  let* image := lift (image_open fs path) in
  let dataloader := make_dataloader image transform in
  let* dev := global_device in
  predict utils dataloader model dev ;;
  let* embedding := gets hook_features in
  let* embedding := lift (pca_transform pca embedding) in
  let* label_vec := lift (label_to_vector utils (label_str file) mapping) in
  let features_vec := np_concatenate embedding label_vec in
  ret {| doc_id := id_str file;
         doc_filename := file;
         doc_path := path;
         doc_features := features_vec |}.

(** Lines 63-94: the loop, with the two variables it updates. *)
Fixpoint create_docs_loop (directory : string) (model : Model F Tensor World)
    (pca : PCA F) (transform : Image -> Tensor)
    (mapping : gmap string nat) (files : list string)
    (data : list Doc) (num_features : nat) : M World (list Doc * nat) :=
  match files with
  | [] => ret (data, num_features)
  | file :: rest =>
    let* doc := loop_body directory model pca transform mapping file in
    create_docs_loop directory model pca transform mapping rest
      (data ++ [doc]) (length (doc_features doc))
  end.

(** [create_docs] (lines 27-96).  [None] for an argument is Python's
    [None]. *)
Definition create_docs (directory : string)
    (model : option (Model F Tensor World)) (pca : option (PCA F))
    (transform : Image -> Tensor) (mapping : gmap string nat)
  : M World (option (list Doc) * nat) :=
  if negb (isdir fs directory) then
    logger_error "Provided path doesn't exist or isn't a directory ..." ;;
    ret (None, 0)
  else
    match model, pca with
    | None, _ =>
      logger_error "Provided deep-learning model is None ..." ;;
      ret (None, 0)
    | Some _, None =>
      logger_error "Provided PCA model is None ..." ;;
      ret (None, 0)
    | Some model, Some pca =>
      let* files := lift (listdir fs directory) in
      let* r := create_docs_loop directory model pca transform mapping files [] 0 in
      ret (Some (fst r), snd r)
    end.

(** The mapping of the [__main__] block (lines 121-132). *)
Definition label_mapping : gmap string nat :=
  {[ "airplane" := 0; "automobile" := 1; "bird" := 2; "cat" := 3;
     "deer" := 4; "dog" := 5; "frog" := 6; "horse" := 7; "ship" := 8;
     "truck" := 9 ]}.

(** Lines 164-166: the check of what [create_docs] returned. *)
Definition check_docs (r : option (list Doc) * nat) : M World unit :=
  let '(images, num_features) := r in
  if bool_decide (images = None) || (num_features =? 0) then
    logger_error "Number of Elasticsearch documents is 0 ..." ;;
    raise (SystemExit 1)
  else ret tt.

(** The [__main__] block (lines 111-166), up to the check of what
    [create_docs] returned.  [cuda_is_available] is the answer of
    [torch.cuda.is_available()], [transform] the composed torchvision
    pipeline of lines 155-160. *)
Definition main (cuda_is_available : bool) (transform : Image -> Tensor)
  : M World unit :=
  let path_vgg_16 := "saved-model/vgg16-weights.pth" in
  let path_pca := "saved-model/pca.joblib" in
  let dir_train := "static/cifar10/train" in
  let dev := if cuda_is_available then Cuda else Cpu in
  modify (set_device dev) ;;
  logger_info ("Using " +:+ device_str dev +:+ " device ...") ;;
  logger_info ("Loading VGG-16 model from " +:+ path_vgg_16 +:+ " ...") ;;
  let* model := lift (load_vgg16 fs path_vgg_16 dev) in
  let model := register_forward_hook model (get_features tt) in
  logger_info ("Loading PCA model from " +:+ path_pca +:+ " ...") ;;
  let* pca := lift (joblib_load fs path_pca) in
  logger_info "Loading CIFAR-10 data and creating Elasticsearch documents ..." ;;
  let* r := create_docs dir_train (Some model) pca transform label_mapping in
  check_docs r.
End CreateDocs.
End App.

Arguments World F : clear implicits.
Arguments Doc F : clear implicits.
Arguments FileSystem F Image Tensor : clear implicits.
Arguments Utils F Image Tensor : clear implicits.

(* ===================================================================== *)
(** ** models/utils.py *)
(* ===================================================================== *)

Section ModelsUtils.
Context {F Image Tensor : Type} `{FloatOps F}.

(** Modelled from the spec: the loop of [predict] over the batches, one
    forward pass per batch (spec 4.2). *)
Fixpoint forward_all {S} (m : Model F Tensor S) (bs : list (list Tensor))
  : M S unit :=
  match bs with
  | [] => ret tt
  | b :: bs' => forward m b ;; forward_all m bs'
  end.

(** Modelled from the spec: the function [predict] of [models/utils.py],
    which takes the batches of transformed images, the loaded network and
    the target device and runs the network on the batches; the forward
    pass fires the hook as its side effect (spec 4.2).  The device decides
    where the computation runs, not what it yields. *)
Definition predict_spec {S} (dl : DataLoader Image Tensor)
    (m : Model F Tensor S) (_ : Device) : M S unit :=
  forward_all m (batches dl).

(** Modelled from the spec: the one-hot vector built by [label_to_vector],
    a single 1 at the position of the active category, 0 elsewhere
    (spec, glossary). *)
Definition one_hot (n i : nat) : list F :=
  map (fun k => if k =? i then f_one else f_zero) (seq 0 n).

(** Modelled from the spec: the function [label_to_vector] of
    [models/utils.py], from a label string and the mapping from names to
    indices to the one-hot vector whose length is the number of classes;
    it fails if the label is not in the mapping (spec 3 and 4.4). *)
Definition label_to_vector_spec (label : string) (mapping : gmap string nat)
  : Result (list F) :=
  match mapping !! label with
  | None => Raise (KeyError label)
  | Some i =>
    if i <? size mapping then Ok (one_hot (size mapping) i)
    else Raise IndexError
  end.

Definition models_utils : Utils F Image Tensor :=
  {| predict := predict_spec; label_to_vector := label_to_vector_spec |}.
End ModelsUtils.

(* ===================================================================== *)
(** ** A small concrete run *)
(* ===================================================================== *)

(** Integers for array elements, an image as the list of its pixel values,
    and a tensor as a list of numbers. *)
Module Demo.

#[global] Instance Z_ops : FloatOps Z :=
  {| f_zero := 0%Z; f_one := 1%Z; f_add := Z.add; f_sub := Z.sub; f_mul := Z.mul |}.

Definition train : string := "static/cifar10/train".

Definition pixels (path : string) : Result (list Z) :=
  if String.eqb path "static/cifar10/train/7-cat.png" then Ok [3; 1; 4]%Z
  else if String.eqb path "static/cifar10/train/8-ship.png" then Ok [1; 5; 9]%Z
  else if String.eqb path "static/cifar10/train/cat.png" then Ok [2; 6; 5]%Z
  else if String.eqb path "static/cifar10/train/9-zebra.png" then Ok [3; 5; 8]%Z
  else Raise (OSError path).

(** A network whose hooked layer is three units wide. *)
Definition vgg16 : Model Z (list Z) (World Z) :=
  {| layer_output := fun t => map (Z.mul 2) t; forward_hooks := [] |}.

(** A projection from three to two dimensions. *)
Definition pca : PCA Z :=
  {| mean_ := [1; 1; 1]%Z; components_ := [[1; 0; 0]; [0; 1; 1]]%Z |}.

Definition fs_with (files : Result (list string)) : FileSystem Z (list Z) (list Z) :=
  {| isdir := fun d => String.eqb d train;
     listdir := fun _ => files;
     image_open := pixels;
     load_vgg16 := fun _ _ => Ok vgg16;
     joblib_load := fun _ => Ok (Some pca) |}.

Definition fs : FileSystem Z (list Z) (list Z) :=
  fs_with (Ok ["7-cat.png"; "8-ship.png"]).

(** The same artifacts where the training directory does not exist. *)
Definition fs_missing : FileSystem Z (list Z) (list Z) :=
  {| isdir := fun _ => false;
     listdir := fun d => Raise (OSError d);
     image_open := pixels;
     load_vgg16 := fun _ _ => Ok vgg16;
     joblib_load := fun _ => Ok (Some pca) |}.

Definition transform (image : list Z) : list Z := map Z.succ image.


Definition hooked : Model Z (list Z) (World Z) :=
  register_forward_hook vgg16 (get_features tt).

Definition bound : World Z := set_device Cpu initial_world.

End Demo.

(* ===================================================================== *)
(** ** Notions used to state the properties *)
(* ===================================================================== *)

Section Notions.
Context {F Image Tensor : Type} `{FloatOps F}.
Variable fs : FileSystem F Image Tensor.
Variable utils : Utils F Image Tensor.

(** The documents of a listing, one loop body after the other. *)
Fixpoint docs_of (directory : string) (model : Model F Tensor (World F))
    (pca : PCA F) (transform : Image -> Tensor) (mapping : gmap string nat)
    (files : list string) : M (World F) (list (Doc F)) :=
  match files with
  | [] => ret []
  | file :: rest =>
    let* doc := loop_body fs utils directory model pca transform mapping file in
    let* docs := docs_of directory model pca transform mapping rest in
    ret (doc :: docs)
  end.

(** Every per-file step succeeds: the loop body returns for each entry of
    the listing, each run from the state its predecessor left. *)
Fixpoint steps_succeed (directory : string) (model : Model F Tensor (World F))
    (pca : PCA F) (transform : Image -> Tensor) (mapping : gmap string nat)
    (files : list string) (w : World F) : bool :=
  match files with
  | [] => true
  | file :: rest =>
    match loop_body fs utils directory model pca transform mapping file w with
    | (Ok _, w') => steps_succeed directory model pca transform mapping rest w'
    | (Raise _, _) => false
    end
  end.

(** The five steps of the body that can fail, in the order they run. *)
Inductive body_steps (directory : string) (model : Model F Tensor (World F))
    (pca : PCA F) (transform : Image -> Tensor) (mapping : gmap string nat)
    (file : string) (w : World F)
  : Result (Doc F) -> World F -> Prop :=
  | steps_open_fails e :
      image_open fs (PyStr.os_path_join directory file) = Raise e ->
      body_steps directory model pca transform mapping file w (Raise e) w
  | steps_device_unbound image :
      image_open fs (PyStr.os_path_join directory file) = Ok image ->
      device w = None ->
      body_steps directory model pca transform mapping file w (Raise (NameError "device")) w
  | steps_predict_fails image dev e w' :
      image_open fs (PyStr.os_path_join directory file) = Ok image ->
      device w = Some dev ->
      predict utils (make_dataloader image transform) model dev w = (Raise e, w') ->
      body_steps directory model pca transform mapping file w (Raise e) w'
  | steps_pca_fails image dev e w' :
      image_open fs (PyStr.os_path_join directory file) = Ok image ->
      device w = Some dev ->
      predict utils (make_dataloader image transform) model dev w = (Ok tt, w') ->
      pca_transform pca (hook_features w') = Raise e ->
      body_steps directory model pca transform mapping file w (Raise e) w'
  | steps_label_fails image dev emb e w' :
      image_open fs (PyStr.os_path_join directory file) = Ok image ->
      device w = Some dev ->
      predict utils (make_dataloader image transform) model dev w = (Ok tt, w') ->
      pca_transform pca (hook_features w') = Ok emb ->
      label_to_vector utils (label_str file) mapping = Raise e ->
      body_steps directory model pca transform mapping file w (Raise e) w'
  | steps_doc image dev emb label_vec w' :
      image_open fs (PyStr.os_path_join directory file) = Ok image ->
      device w = Some dev ->
      predict utils (make_dataloader image transform) model dev w = (Ok tt, w') ->
      pca_transform pca (hook_features w') = Ok emb ->
      label_to_vector utils (label_str file) mapping = Ok label_vec ->
      body_steps directory model pca transform mapping file w
        (Ok {| doc_id := id_str file;
               doc_filename := file;
               doc_path := PyStr.os_path_join directory file;
               doc_features := np_concatenate emb label_vec |}) w'.

(** The length of the feature vector of the last document, [n0] when
    there is none. *)
Definition last_num_features (n0 : nat) (data : list (Doc F)) : nat :=
  match last data with
  | Some doc => length (doc_features doc)
  | None => n0
  end.
End Notions.

Section HookNotions.
Context {F Tensor : Type}.

(** Every hook registered on the model is the one of [get_features]. *)
Definition only_get_features (m : Model F Tensor (World F)) : Prop :=
  Forall (fun h => h = get_features tt) (forward_hooks m).

(** The model carries the hook of [get_features], as after line 148. *)
Definition hooked_by_get_features (m : Model F Tensor (World F)) : Prop :=
  forward_hooks m <> [] /\ only_get_features m.
End HookNotions.

(* ===================================================================== *)
(** ** Sample evaluations *)
(* ===================================================================== *)

Example find_dash : PyStr.find "42-cat.png" "-" = 2%Z.
Proof. reflexivity. Qed.

Example find_absent : PyStr.find "cat.png" "-" = (-1)%Z.
Proof. reflexivity. Qed.

Example slice_label :
  PyStr.slice "42-cat.png" (PyStr.find "42-cat.png" "-" + 1) (PyStr.find "42-cat.png" ".") = "cat".
Proof. reflexivity. Qed.

Example slice_negative_stop : PyStr.slice "cat.png" 0 (-1) = "cat.pn".
Proof. reflexivity. Qed.

Example slice_empty_range : PyStr.slice "a.b-c.png" 4 1 = "".
Proof. reflexivity. Qed.

Example join_plain : PyStr.os_path_join "static/cifar10/train" "42-cat.png" = "static/cifar10/train/42-cat.png".
Proof. reflexivity. Qed.

Example join_trailing_sep : PyStr.os_path_join "train/" "1-dog.png" = "train/1-dog.png".
Proof. reflexivity. Qed.

Example batches_of_three :
  batches {| dl_dataset := {| ds_images := [1; 2; 3]%Z; ds_transform := Z.succ |};
             batch_size := 2; shuffle := false |}
  = [[2; 3]; [4]]%Z.
Proof. reflexivity. Qed.

Example batches_of_two_with_64 :
  batches {| dl_dataset := {| ds_images := [1; 2]%Z; ds_transform := Z.succ |};
             batch_size := 64; shuffle := false |}
  = [[2; 3]]%Z.
Proof. reflexivity. Qed.

Example label_unknown :
  label_to_vector_spec (F := Z) "zebra" label_mapping = Raise (KeyError "zebra").
Proof. reflexivity. Qed.

Example transform_empty_buffer :
  is_ok (pca_transform Demo.pca []) = false.
Proof. reflexivity. Qed.

Example transform_wrong_width :
  is_ok (pca_transform Demo.pca [[1; 2]%Z]) = false.
Proof. reflexivity. Qed.

Example demo_docs :
  fst (create_docs Demo.fs models_utils Demo.train (Some Demo.hooked) (Some Demo.pca)
         Demo.transform label_mapping Demo.bound)
  = Ok (Some [ {| doc_id := "7"; doc_filename := "7-cat.png";
                  doc_path := "static/cifar10/train/7-cat.png";
                  doc_features := [7; 12; 0; 0; 0; 1; 0; 0; 0; 0; 0; 0]%Z |};
               {| doc_id := "8"; doc_filename := "8-ship.png";
                  doc_path := "static/cifar10/train/8-ship.png";
                  doc_features := [3; 30; 0; 0; 0; 0; 0; 0; 0; 0; 1; 0]%Z |} ],
         12).
Proof. vm_compute. reflexivity. Qed.

Example demo_main :
  fst (main Demo.fs models_utils false Demo.transform initial_world) = Ok tt.
Proof. vm_compute. reflexivity. Qed.

(* ===================================================================== *)
(** ** Facts about [str.find] and slicing *)
(* ===================================================================== *)

Section StringFacts.
Import PyStr.

Lemma find_from_absent c s i : contains c s = false -> find_from c s i = (-1)%Z.
Proof.
  revert i. induction s as [|a s IH]; intros i Hc; simpl in *; [reflexivity|].
  apply orb_false_iff in Hc as [Ha Hs]. rewrite Ha. now apply IH.
Qed.

Lemma find_from_present c s i :
  contains c s = true -> (i <= find_from c s i < i + Z.of_nat (String.length s))%Z.
Proof.
  revert i. induction s as [|a s IH]; intros i Hc; simpl in *; [discriminate|].
  destruct (Ascii.eqb a c); simpl in Hc; [lia|].
  specialize (IH (i + 1)%Z Hc). lia.
Qed.

(** The needle right after a prefix that does not hold it is found at the
    length of the prefix. *)
Lemma find_from_prefix c pre rest i :
  contains c pre = false ->
  find_from c (pre +:+ String c rest) i = (i + Z.of_nat (String.length pre))%Z.
Proof.
  revert i. induction pre as [|a pre IH]; intros i Hc; simpl in *.
  - rewrite Ascii.eqb_refl. lia.
  - apply orb_false_iff in Hc as [Ha Hs]. rewrite Ha, IH by assumption. lia.
Qed.

Lemma length_append s t : String.length (s +:+ t) = String.length s + String.length t.
Proof. induction s as [|a s IH]; simpl; [reflexivity|]. now rewrite IH. Qed.

Lemma contains_append c s t : contains c (s +:+ t) = contains c s || contains c t.
Proof. induction s as [|a s IH]; simpl; [reflexivity|]. rewrite IH. now rewrite orb_assoc. Qed.

Lemma substring_prefix pre rest : substring 0 (String.length pre) (pre +:+ rest) = pre.
Proof.
  induction pre as [|a pre IH]; simpl.
  - now destruct rest.
  - now rewrite IH.
Qed.

Lemma substring_skip pre rest n m :
  substring (String.length pre + n) m (pre +:+ rest) = substring n m rest.
Proof. induction pre as [|a pre IH]; simpl; [reflexivity|]. apply IH. Qed.

Lemma substring_drop_last s : substring 0 (String.length s - 1) s = drop_last s.
Proof.
  induction s as [|a s IH]; simpl; [reflexivity|].
  destruct s as [|b s']; [reflexivity|].
  simpl in *. rewrite Nat.sub_0_r in IH. now rewrite IH.
Qed.

(** [s[0:-1]] drops the last character. *)
Lemma slice_to_minus_one s : slice s 0 (-1) = drop_last s.
Proof.
  unfold slice.
  assert (H0 : clip (Z.of_nat (String.length s)) 0 = 0%Z)
    by (unfold clip; destruct (Z.ltb_spec 0 0); lia).
  assert (H1 : clip (Z.of_nat (String.length s)) (-1)
               = Z.of_nat (String.length s - 1))
    by (unfold clip; destruct (Z.ltb_spec (-1) 0); lia).
  cbv zeta. rewrite H0, H1, Z.sub_0_r, Nat2Z.id. apply substring_drop_last.
Qed.
End StringFacts.

Section FileNameFacts.
Import PyStr.

Lemma clip_inside n i : (0 <= i <= n)%Z -> clip n i = i.
Proof. intros Hi. unfold clip. destruct (Z.ltb_spec i 0); lia. Qed.

Lemma append_cons s c t u :
  s +:+ String c (t +:+ u) = (s +:+ String c t) +:+ u.
Proof.
  induction s as [|a s IH]; [reflexivity|].
  change (String a (s +:+ String c (t +:+ u)) = String a ((s +:+ String c t) +:+ u)).
  now rewrite IH.
Qed.

(** A file name that starts with [pre] followed by a dash, where [pre]
    holds no dash: line 89 yields [pre]. *)
Lemma id_str_of_form pre rest :
  contains "-" pre = false -> id_str (pre +:+ String "-" rest) = pre.
Proof.
  intros Hpre. unfold id_str, slice, find.
  rewrite find_from_prefix by assumption.
  rewrite length_append. simpl String.length. cbv zeta.
  rewrite !clip_inside by lia.
  rewrite Z.add_0_l, Z.sub_0_r, Nat2Z.id. apply substring_prefix.
Qed.

(** A file name [pre-mid.post] whose first dash is the one after [pre] and
    whose first dot is the one after [mid]: line 81 yields [mid]. *)
Lemma label_str_of_form pre mid post :
  contains "-" pre = false ->
  contains "." pre = false ->
  contains "." mid = false ->
  label_str (pre +:+ String "-" (mid +:+ String "." post)) = mid.
Proof.
  intros Hdash Hdot Hmid. unfold label_str, slice, find.
  rewrite find_from_prefix by assumption.
  rewrite (append_cons pre "-" mid (String "." post)).
  rewrite find_from_prefix
    by (rewrite contains_append, Hdot; simpl; exact Hmid).
  rewrite !length_append. simpl String.length.
  rewrite !clip_inside by lia.
  rewrite <- (append_cons pre "-" mid (String "." post)).
  replace (Z.to_nat (0 + Z.of_nat (String.length pre) + 1))
    with (String.length pre + 1) by lia.
  rewrite substring_skip.
  replace (Z.to_nat _) with (String.length mid) by lia.
  apply (substring_prefix mid (String "." post)).
Qed.
End FileNameFacts.

(* ===================================================================== *)
(** ** The loop body and the loop *)
(* ===================================================================== *)

Section LoopFacts.
Context {F Image Tensor : Type} `{FloatOps F}.
Variable fs : FileSystem F Image Tensor.
Variable utils : Utils F Image Tensor.
Variable directory : string.
Variable model : Model F Tensor (World F).
Variable pca : PCA F.
Variable transform : Image -> Tensor.
Variable mapping : gmap string nat.

Local Abbreviation body := (loop_body fs utils directory model pca transform mapping).
Local Abbreviation docs := (docs_of fs utils directory model pca transform mapping).
Local Abbreviation loop := (create_docs_loop fs utils directory model pca transform mapping).
Local Abbreviation body_steps := (body_steps fs utils directory model pca transform mapping).

Lemma loop_body_steps file w :
  body_steps file w (fst (body file w)) (snd (body file w)).
Proof.
  unfold loop_body, bind, lift, gets, ret, global_device.
  destruct (image_open fs (PyStr.os_path_join directory file)) as [image|e] eqn:Hopen;
    [|now apply steps_open_fails].
  destruct (device w) as [dev|] eqn:Hdev;
    [|now apply steps_device_unbound with image].
  destruct (predict utils (make_dataloader image transform) model dev w)
    as [[[]|e] w'] eqn:Hpred; [|now apply steps_predict_fails with image dev].
  destruct (pca_transform pca (hook_features w')) as [emb|e] eqn:Hpca;
    [|now apply steps_pca_fails with image dev].
  destruct (label_to_vector utils (label_str file) mapping) as [lv|e] eqn:Hlab;
    [|now apply steps_label_fails with image dev emb].
  now apply steps_doc with image dev.
Qed.

Lemma loop_body_inv file w r w' :
  body file w = (r, w') -> body_steps file w r w'.
Proof. intros Hb. pose proof (loop_body_steps file w) as Hs. now rewrite Hb in Hs. Qed.

(** Lines 88-93: the three fields taken from the file name. *)
Lemma loop_body_fields file w doc w' :
  body file w = (Ok doc, w') ->
  doc_filename doc = file /\
  doc_path doc = PyStr.os_path_join directory file /\
  doc_id doc = id_str file.
Proof. intros Hb. apply loop_body_inv in Hb. now inversion Hb. Qed.

Lemma body_steps_deterministic file w r1 w1 r2 w2 :
  body_steps file w r1 w1 -> body_steps file w r2 w2 -> r1 = r2 /\ w1 = w2.
Proof.
  intros H1 H2.
  destruct H1; destruct H2;
    repeat match goal with
    | Ha : ?x = _, Hb : ?x = _ |- _ => rewrite Ha in Hb; inversion Hb; subst; clear Hb
    end; try discriminate; auto.
Qed.

Lemma loop_body_intro file w r w' :
  body_steps file w r w' -> body file w = (r, w').
Proof.
  intros Hs. pose proof (loop_body_steps file w) as Hs'.
  destruct (body_steps_deterministic _ _ _ _ _ _ Hs Hs') as [-> ->].
  now destruct (body file w).
Qed.
End LoopFacts.

Section LoopFacts2.
Context {F Image Tensor : Type} `{FloatOps F}.
Variable fs : FileSystem F Image Tensor.
Variable utils : Utils F Image Tensor.
Variable directory : string.
Variable model : Model F Tensor (World F).
Variable pca : PCA F.
Variable transform : Image -> Tensor.
Variable mapping : gmap string nat.

Local Abbreviation body := (loop_body fs utils directory model pca transform mapping).
Local Abbreviation docs := (docs_of fs utils directory model pca transform mapping).
Local Abbreviation loop := (create_docs_loop fs utils directory model pca transform mapping).
Local Abbreviation succeed := (steps_succeed fs utils directory model pca transform mapping).

Lemma last_num_features_cons n (doc : Doc F) ds :
  last_num_features n (doc :: ds) = last_num_features (length (doc_features doc)) ds.
Proof.
  unfold last_num_features. destruct ds as [|d ds]; [reflexivity|].
  change (last (doc :: d :: ds)) with (last (d :: ds)).
  now destruct (last (d :: ds)) eqn:E; [|apply last_None in E].
Qed.

(** The loop with its accumulators against the plain list of documents. *)
Lemma create_docs_loop_docs_of files data n w :
  loop files data n w =
  match docs files w with
  | (Ok ds, w') => (Ok (data ++ ds, last_num_features n ds), w')
  | (Raise e, w') => (Raise e, w')
  end.
Proof.
  revert data n w. induction files as [|file rest IH]; intros data n w.
  - cbn. unfold ret. now rewrite app_nil_r.
  - cbn [create_docs_loop docs_of]. unfold bind, ret.
    destruct (body file w) as [[doc|e] w1]; [|reflexivity].
    rewrite IH.
    destruct (docs rest w1) as [[ds|e] w2]; [|reflexivity].
    now rewrite last_num_features_cons, <- app_assoc.
Qed.

(** The documents of a listing carry the names of its entries, in order. *)
Lemma docs_of_filenames files w ds w' :
  docs files w = (Ok ds, w') ->
  map doc_filename ds = files /\
  map doc_path ds = map (PyStr.os_path_join directory) files /\
  map doc_id ds = map id_str files.
Proof.
  revert w ds. induction files as [|file rest IH]; intros w ds.
  - cbn. unfold ret. intros [= <- <-]. now cbn.
  - cbn [docs_of]. unfold bind, ret.
    destruct (body file w) as [[doc|e] w1] eqn:Hb; [|discriminate].
    destruct (docs rest w1) as [[ds'|e] w2] eqn:Hd; [|discriminate].
    intros [= <- <-]. destruct (IH _ _ Hd) as (Hn & Hp & Hi).
    destruct (loop_body_fields _ _ _ _ _ _ _ _ _ _ _ Hb) as (En & Ep & Ei).
    cbn. now rewrite Hn, Hp, Hi, En, Ep, Ei.
Qed.

(** The loop returns exactly when every body does. *)
Lemma docs_of_succeed files w :
  succeed files w = is_ok (fst (docs files w)).
Proof.
  revert w. induction files as [|file rest IH]; intros w; [reflexivity|].
  cbn [steps_succeed docs_of]. unfold bind, ret.
  destruct (body file w) as [[doc|e] w1]; [|reflexivity].
  rewrite IH. now destruct (docs rest w1) as [[ds|e] w2].
Qed.

(** A failing body ends the loop with its exception and its state. *)
Lemma docs_of_raise done file rest w ds w1 e w2 :
  docs done w = (Ok ds, w1) ->
  body file w1 = (Raise e, w2) ->
  docs (done ++ file :: rest) w = (Raise e, w2).
Proof.
  revert w ds. induction done as [|f done IH]; intros w ds.
  - cbn [docs_of app]. unfold ret, bind. intros [= <- <-] Hb. now rewrite Hb.
  - cbn [docs_of app]. unfold bind, ret.
    destruct (body f w) as [[doc|e'] w'] eqn:Hf; [|discriminate].
    destruct (docs done w') as [[ds'|e'] w''] eqn:Hd; [|discriminate].
    intros [= <- <-] Hb. now rewrite (IH _ _ Hd Hb).
Qed.

(** A property of the state that every body preserves holds when the loop
    ends, however it ends. *)
Lemma docs_of_invariant (Inv : World F -> Prop) files w r w' :
  (forall file w0 r0 w1, Inv w0 -> body file w0 = (r0, w1) -> Inv w1) ->
  Inv w -> docs files w = (r, w') -> Inv w'.
Proof.
  intros Hstep. revert w r. induction files as [|file rest IH]; intros w r Hw.
  - cbn. unfold ret. now intros [= <- <-].
  - cbn [docs_of]. unfold bind, ret.
    destruct (body file w) as [[doc|e] w1] eqn:Hb.
    + destruct (docs rest w1) as [[ds|e] w2] eqn:Hd; intros [= <- <-];
        exact (IH _ _ (Hstep _ _ _ _ Hw Hb) Hd).
    + intros [= <- <-]. exact (Hstep _ _ _ _ Hw Hb).
Qed.

(** A relation between an entry and its document that every body
    establishes, from states satisfying an invariant it preserves, relates
    the listing to the result entry by entry. *)
Lemma docs_of_Forall2 (Inv : World F -> Prop) (R : string -> Doc F -> Prop)
    files w ds w' :
  (forall file w0 doc w1,
     Inv w0 -> body file w0 = (Ok doc, w1) -> R file doc /\ Inv w1) ->
  Inv w -> docs files w = (Ok ds, w') -> Forall2 R files ds /\ Inv w'.
Proof.
  intros Hstep. revert w ds. induction files as [|file rest IH]; intros w ds Hw.
  - cbn. unfold ret. intros [= <- <-]. split; [constructor | assumption].
  - cbn [docs_of]. unfold bind, ret.
    destruct (body file w) as [[doc|e] w1] eqn:Hb; [|discriminate].
    destruct (docs rest w1) as [[ds'|e] w2] eqn:Hd; [|discriminate].
    intros [= <- <-]. destruct (Hstep _ _ _ _ Hw Hb) as [HR Hw1].
    destruct (IH _ _ Hw1 Hd) as [HF Hw2]. split; [now constructor | assumption].
Qed.

(** [create_docs] once the three checks of lines 51-59 have passed. *)
Lemma create_docs_run w :
  isdir fs directory = true ->
  create_docs fs utils directory (Some model) (Some pca) transform mapping w =
  match listdir fs directory with
  | Raise e => (Raise e, w)
  | Ok files =>
    match docs files w with
    | (Ok ds, w') => (Ok (Some ds, last_num_features 0 ds), w')
    | (Raise e, w') => (Raise e, w')
    end
  end.
Proof.
  intros Hdir. unfold create_docs. rewrite Hdir. cbn [negb].
  unfold bind, lift, ret.
  destruct (listdir fs directory) as [files|e]; [|reflexivity].
  rewrite create_docs_loop_docs_of.
  now destruct (docs files w) as [[ds|e] w'].
Qed.
End LoopFacts2.

Section CreateDocsFacts.
Context {F Image Tensor : Type} `{FloatOps F}.
Variable fs : FileSystem F Image Tensor.
Variable utils : Utils F Image Tensor.

(** The three early returns of lines 51-59. *)
Lemma create_docs_early directory model pca transform mapping w :
  isdir fs directory = false \/ model = None \/ pca = None ->
  exists msg,
    create_docs fs utils directory model pca transform mapping w
    = (Ok (None, 0), add_log ERROR msg w).
Proof.
  intros Hpre. unfold create_docs.
  destruct (isdir fs directory) eqn:Hdir; cbn [negb]; [|now eexists].
  destruct model as [m|]; [|now eexists].
  destruct pca as [p|]; [|now eexists].
  destruct Hpre as [Hd|[Hm|Hp]]; discriminate.
Qed.

(** A returned list of documents tells that the checks passed and that the
    loop ran over the listing. *)
Lemma create_docs_some_inv directory model pca transform mapping w data n w' :
  create_docs fs utils directory model pca transform mapping w
    = (Ok (Some data, n), w') ->
  exists m p files,
    model = Some m /\ pca = Some p /\
    isdir fs directory = true /\ listdir fs directory = Ok files /\
    docs_of fs utils directory m p transform mapping files w = (Ok data, w') /\
    n = last_num_features 0 data.
Proof.
  intros Hrun.
  destruct (isdir fs directory) eqn:Hdir.
  - destruct model as [m|], pca as [p|];
      try (destruct (create_docs_early directory None None transform mapping w) as [? E];
           [tauto | rewrite E in Hrun; discriminate]);
      try (destruct (create_docs_early directory None (Some p) transform mapping w) as [? E];
           [tauto | rewrite E in Hrun; discriminate]);
      try (destruct (create_docs_early directory (Some m) None transform mapping w) as [? E];
           [tauto | rewrite E in Hrun; discriminate]).
    rewrite create_docs_run in Hrun by assumption.
    destruct (listdir fs directory) as [files|e]; [|discriminate].
    destruct (docs_of fs utils directory m p transform mapping files w)
      as [[ds|e] w1] eqn:Hd; [|discriminate].
    injection Hrun as <- <- <-. now exists m, p, files.
  - destruct (create_docs_early directory model pca transform mapping w) as [? E];
      [tauto | rewrite E in Hrun; discriminate].
Qed.
End CreateDocsFacts.

(* ===================================================================== *)
(** ** The entry point *)
(* ===================================================================== *)

Section MainFacts.
Context {F Image Tensor : Type} `{FloatOps F}.
Variable fs : FileSystem F Image Tensor.
Variable utils : Utils F Image Tensor.

(** Lines 164-166 on the values that make the test true. *)
Lemma check_docs_exits (images : option (list (Doc F))) n w :
  images = None \/ n = 0 ->
  check_docs (images, n) w
  = (Raise (SystemExit 1), add_log ERROR "Number of Elasticsearch documents is 0 ..." w).
Proof.
  intros [-> | ->]; unfold check_docs.
  - reflexivity.
  - now rewrite orb_true_r.
Qed.

(** When both artifacts load, [main] comes down to the call of line 163
    followed by the check, run with [device] bound. *)
Lemma main_run (cuda : bool) transform w0 m p :
  let dev := if cuda then Cuda else Cpu in
  load_vgg16 fs "saved-model/vgg16-weights.pth" dev = Ok m ->
  joblib_load fs "saved-model/pca.joblib" = Ok p ->
  exists w1,
    device w1 = Some dev /\ hook_features w1 = hook_features w0 /\
    main fs utils cuda transform w0 =
    (let* r := create_docs fs utils "static/cifar10/train"
                 (Some (register_forward_hook m (get_features tt))) p
                 transform label_mapping in
     check_docs r) w1.
Proof.
  intros dev Hm Hp. unfold main.
  unfold bind at 1 2 3 4 5 6 7. unfold modify, logger_info, lift.
  fold dev. rewrite Hm, Hp.
  eexists. split; [|split]; [| |reflexivity]; reflexivity.
Qed.
End MainFacts.

(* ===================================================================== *)
(** ** C1: the sentinel of the precondition checks *)
(* ===================================================================== *)

(** C1.  When the directory argument is not an existing directory, or the
    model argument is [None], or the PCA argument is [None], [create_docs]
    returns the pair [(None, 0)]; nothing but one error record in the log
    distinguishes the state it leaves from the one it found, whatever the
    directory holds and whatever [predict] would do.  The check of lines
    164-166 answers this pair with [sys.exit(1)], and so does [main] whenever
    its training directory is missing or the loaded PCA is [None]: the exit
    status is 1. *)
Theorem create_docs_precondition_sentinel
    {F Image Tensor : Type} `{FloatOps F}
    (fs : FileSystem F Image Tensor) (utils : Utils F Image Tensor)
    directory model pca (transform : Image -> Tensor) mapping (w : World F) :
  isdir fs directory = false \/ model = None \/ pca = None ->
  (exists msg,
     create_docs fs utils directory model pca transform mapping w
     = (Ok (None, 0), add_log ERROR msg w)) /\
  (forall w1 : World F,
     fst (check_docs (None, 0) w1) = Raise (SystemExit 1) /\
     exit_status (fst (check_docs (None, 0) w1)) = 1%Z) /\
  (forall (cuda : bool) w0 m p,
     load_vgg16 fs "saved-model/vgg16-weights.pth" (if cuda then Cuda else Cpu) = Ok m ->
     joblib_load fs "saved-model/pca.joblib" = Ok p ->
     isdir fs "static/cifar10/train" = false \/ p = None ->
     fst (main fs utils cuda transform w0) = Raise (SystemExit 1) /\
     exit_status (fst (main fs utils cuda transform w0)) = 1%Z).
Proof.
  intros Hpre. split; [|split].
  - now apply create_docs_early.
  - intros w1. rewrite check_docs_exits by now left. now split.
  - intros cuda w0 m p Hm Hp Hbad.
    destruct (main_run fs utils cuda transform w0 m p Hm Hp) as (w1 & _ & _ & ->).
    unfold bind.
    destruct (create_docs_early fs utils "static/cifar10/train"
                (Some (register_forward_hook m (get_features tt))) p
                transform label_mapping w1) as [msg ->];
      [destruct Hbad; auto|].
    rewrite check_docs_exits by now left. now split.
Qed.

Lemma create_docs_precondition_sentinel_witness :
  isdir Demo.fs "nowhere" = false /\
  fst (create_docs Demo.fs models_utils "nowhere" (Some Demo.hooked) (Some Demo.pca)
         Demo.transform label_mapping initial_world) = Ok (None, 0) /\
  exit_status (fst (main Demo.fs_missing models_utils false Demo.transform initial_world)) = 1%Z.
Proof.
  split; [reflexivity|].
  destruct (create_docs_precondition_sentinel Demo.fs models_utils "nowhere"
              (Some Demo.hooked) (Some Demo.pca) Demo.transform label_mapping
              initial_world (or_introl eq_refl)) as [[msg E] _].
  split; [now rewrite E|].
  destruct (create_docs_precondition_sentinel Demo.fs_missing models_utils "nowhere"
              (Some Demo.hooked) (Some Demo.pca) Demo.transform label_mapping
              initial_world (or_introl eq_refl)) as (_ & _ & Hmain).
  exact (proj2 (Hmain false initial_world Demo.vgg16 (Some Demo.pca)
                  eq_refl eq_refl (or_introl eq_refl))).
Defined.

(* ===================================================================== *)
(** ** C2: one document per directory entry *)
(* ===================================================================== *)

(** C2.  For a directory that exists, a model and a PCA that are not
    [None], and a listing on which every per-file step succeeds,
    [create_docs] returns a list of documents as long as the listing, whose
    file names are the entries of the listing in listing order, document [k]
    being the one the loop body built for entry [k]. *)
Theorem create_docs_one_document_per_file
    {F Image Tensor : Type} `{FloatOps F}
    (fs : FileSystem F Image Tensor) (utils : Utils F Image Tensor)
    directory model pca (transform : Image -> Tensor) mapping files (w : World F) :
  isdir fs directory = true ->
  listdir fs directory = Ok files ->
  steps_succeed fs utils directory model pca transform mapping files w = true ->
  exists data n w',
    create_docs fs utils directory (Some model) (Some pca) transform mapping w
    = (Ok (Some data, n), w') /\
    length data = length files /\
    map doc_filename data = files /\
    Forall2 (fun file doc =>
               exists wk wk',
                 loop_body fs utils directory model pca transform mapping file wk
                 = (Ok doc, wk'))
            files data.
Proof.
  intros Hdir Hls Hok.
  rewrite create_docs_run, Hls by assumption.
  rewrite docs_of_succeed in Hok.
  destruct (docs_of fs utils directory model pca transform mapping files w)
    as [[ds|e] w'] eqn:Hd; [|discriminate].
  exists ds, (last_num_features 0 ds), w'.
  destruct (docs_of_filenames _ _ _ _ _ _ _ _ _ _ _ Hd) as (Hn & _ & _).
  split; [reflexivity|]. split; [|split; [assumption|]].
  - rewrite <- Hn. now rewrite length_map.
  - refine (proj1 (docs_of_Forall2 fs utils directory model pca transform mapping
                     (fun _ => True) _ files w ds w' _ I Hd)).
    intros file w0 doc w1 _ Hb. split; [now exists w0, w1 | exact I].
Qed.

Lemma create_docs_one_document_per_file_witness :
  exists data n w',
    create_docs Demo.fs models_utils Demo.train (Some Demo.hooked) (Some Demo.pca)
      Demo.transform label_mapping Demo.bound = (Ok (Some data, n), w') /\
    length data = 2 /\
    map doc_filename data = ["7-cat.png"; "8-ship.png"].
Proof.
  destruct (create_docs_one_document_per_file Demo.fs models_utils Demo.train
              Demo.hooked Demo.pca Demo.transform label_mapping
              ["7-cat.png"; "8-ship.png"] Demo.bound)
    as (data & n & w' & Hrun & Hlen & Hnames & _).
  - reflexivity.
  - reflexivity.
  - vm_compute. reflexivity.
  - exists data, n, w'. split; [exact Hrun|]. split; [exact Hlen | exact Hnames].
Defined.

(* ===================================================================== *)
(** ** C4: the fields taken from the file name *)
(* ===================================================================== *)

Section FileNameFields.
Context {F Image Tensor : Type} `{FloatOps F}.
Variable fs : FileSystem F Image Tensor.
Variable utils : Utils F Image Tensor.

(** What a returned document says about the entry it was built for. *)
Lemma loop_body_doc directory model pca transform mapping file w doc w' :
  loop_body fs utils directory model pca transform mapping file w = (Ok doc, w') ->
  doc_id doc = id_str file /\
  doc_filename doc = file /\
  doc_path doc = PyStr.os_path_join directory file /\
  exists emb label_vec,
    label_to_vector utils (label_str file) mapping = Ok label_vec /\
    doc_features doc = np_concatenate emb label_vec.
Proof.
  intros Hb. apply loop_body_inv in Hb.
  inversion Hb as [| | | | |image dev emb lv w1 Hopen Hdev Hpred Hpca Hlab].
  cbn. repeat split. now exists emb, lv.
Qed.
End FileNameFields.

(** C4.  For an entry of the listing of the form [<id>-<label>.<ext>], the
    first dash of the name being the one after [<id>] and its first dot the
    one after [<label>], the document built for it has ['id'] equal to
    [<id>], the part before the first dash, ['filename'] equal to the whole
    name, ['path'] equal to the directory joined with the name, and a label
    vector computed from [<label>], the part between the first dash and the
    first dot. *)
Theorem create_docs_file_name_fields
    {F Image Tensor : Type} `{FloatOps F}
    (fs : FileSystem F Image Tensor) (utils : Utils F Image Tensor)
    directory model pca (transform : Image -> Tensor) mapping (w : World F)
    data n w' files k pre mid post :
  let file := pre +:+ "-" +:+ mid +:+ "." +:+ post in
  create_docs fs utils directory model pca transform mapping w
    = (Ok (Some data, n), w') ->
  listdir fs directory = Ok files ->
  files !! k = Some file ->
  PyStr.contains "-" pre = false ->
  PyStr.contains "." pre = false ->
  PyStr.contains "." mid = false ->
  exists doc,
    data !! k = Some doc /\
    doc_id doc = pre /\
    doc_filename doc = file /\
    doc_path doc = PyStr.os_path_join directory file /\
    exists emb label_vec,
      label_to_vector utils mid mapping = Ok label_vec /\
      doc_features doc = np_concatenate emb label_vec.
Proof.
  intros file Hrun Hls Hk Hdash Hdot Hmid.
  destruct (create_docs_some_inv _ _ _ _ _ _ _ _ _ _ _ Hrun)
    as (m & p & files' & -> & -> & _ & Hls' & Hd & _).
  rewrite Hls in Hls'. injection Hls' as <-.
  destruct (docs_of_Forall2 fs utils directory m p transform mapping
              (fun _ => True)
              (fun f d => exists wk wk',
                 loop_body fs utils directory m p transform mapping f wk = (Ok d, wk'))
              files w data w') as [HF _]; [|exact I|exact Hd|].
  { intros f w0 d w1 _ Hb. split; [now exists w0, w1 | exact I]. }
  destruct (Forall2_lookup_l _ _ _ _ _ HF Hk) as (doc & Hdoc & wk & wk' & Hb).
  destruct (loop_body_doc _ _ _ _ _ _ _ _ _ _ _ Hb)
    as (Hid & Hname & Hpath & emb & lv & Hlab & Hfeat).
  exists doc. split; [assumption|].
  change file with (pre +:+ String "-" (mid +:+ String "." post)) in *.
  rewrite id_str_of_form in Hid by assumption.
  rewrite label_str_of_form in Hlab by assumption.
  repeat split; try assumption. now exists emb, lv.
Qed.

Lemma create_docs_file_name_fields_witness :
  exists doc : Doc Z,
    doc_id doc = "7" /\ doc_filename doc = "7-cat.png" /\
    doc_path doc = "static/cifar10/train/7-cat.png" /\
    exists emb, doc_features doc = np_concatenate emb (one_hot 10 3).
Proof.
  assert (Hrun : exists data n w',
             create_docs Demo.fs models_utils Demo.train (Some Demo.hooked)
               (Some Demo.pca) Demo.transform label_mapping Demo.bound
             = (Ok (Some data, n), w'))
    by (vm_compute; eauto).
  destruct Hrun as (data & n & w' & Hrun).
  destruct (create_docs_file_name_fields Demo.fs models_utils Demo.train
              (Some Demo.hooked) (Some Demo.pca) Demo.transform label_mapping
              Demo.bound data n w' ["7-cat.png"; "8-ship.png"] 0 "7" "cat" "png"
              Hrun eq_refl eq_refl eq_refl eq_refl eq_refl)
    as (doc & _ & Hid & Hname & Hpath & emb & lv & Hlab & Hfeat).
  exists doc. repeat split; try assumption. exists emb.
  vm_compute in Hlab. injection Hlab as <-. exact Hfeat.
Defined.

(* ===================================================================== *)
(** ** C5: failures of the per-file steps are not handled *)
(* ===================================================================== *)

(** C5.  Once the three checks have passed, a failure of any step of the
    loop body (opening the image, reading [device], [predict],
    [pca.transform], [label_to_vector]) on some entry, the entries before
    it having been processed, makes [create_docs] end with that very
    exception: it is neither turned into the pair [(None, 0)] nor into any
    other returned value, and the documents built so far are lost. *)
Theorem create_docs_failure_propagates
    {F Image Tensor : Type} `{FloatOps F}
    (fs : FileSystem F Image Tensor) (utils : Utils F Image Tensor)
    directory model pca (transform : Image -> Tensor) mapping
    done file rest (w : World F) data n w1 e w2 :
  isdir fs directory = true ->
  listdir fs directory = Ok (done ++ file :: rest) ->
  create_docs_loop fs utils directory model pca transform mapping done [] 0 w
    = (Ok (data, n), w1) ->
  body_steps fs utils directory model pca transform mapping file w1 (Raise e) w2 ->
  create_docs fs utils directory (Some model) (Some pca) transform mapping w
    = (Raise e, w2).
Proof.
  intros Hdir Hls Hdone Hfail.
  rewrite create_docs_run, Hls by assumption.
  rewrite create_docs_loop_docs_of in Hdone.
  destruct (docs_of fs utils directory model pca transform mapping done w)
    as [[ds|e'] w'] eqn:Hd; [|discriminate].
  injection Hdone as _ _ <-.
  apply loop_body_intro in Hfail.
  now rewrite (docs_of_raise _ _ _ _ _ _ _ _ _ rest _ _ _ _ _ Hd Hfail).
Qed.

Lemma create_docs_failure_propagates_witness :
  fst (create_docs (Demo.fs_with (Ok ["7-cat.png"; "9-zebra.png"; "8-ship.png"]))
         models_utils Demo.train (Some Demo.hooked) (Some Demo.pca)
         Demo.transform label_mapping Demo.bound)
  = Raise (KeyError "zebra").
Proof.
  pose (fs := Demo.fs_with (Ok ["7-cat.png"; "9-zebra.png"; "8-ship.png"])).
  let r := eval vm_compute in
    (create_docs_loop fs models_utils Demo.train Demo.hooked Demo.pca
       Demo.transform label_mapping ["7-cat.png"] [] 0 Demo.bound) in
  match r with
  | (Ok (?data, ?n), ?w1) =>
    let r2 := eval vm_compute in
      (loop_body fs models_utils Demo.train Demo.hooked Demo.pca
         Demo.transform label_mapping "9-zebra.png" w1) in
    match r2 with
    | (Raise ?e, ?w2) =>
      rewrite (create_docs_failure_propagates fs models_utils Demo.train
                 Demo.hooked Demo.pca Demo.transform label_mapping
                 ["7-cat.png"] "9-zebra.png" ["8-ship.png"] Demo.bound
                 data n w1 e w2 eq_refl eq_refl)
    end
  end.
  - reflexivity.
  - vm_compute. reflexivity.
  - apply loop_body_inv. vm_compute. reflexivity.
Defined.

(* ===================================================================== *)
(** ** C8: the count is that of the last file *)
(* ===================================================================== *)

(** C8.  Whenever [create_docs] returns a list of documents, its second
    value is the length of the feature vector of the last document, and 0
    when the list is empty.  For a directory that exists and lists no entry
    it returns [([], 0)] and leaves the state as it was; the count is the 0
    of the pair [(None, 0)], the check of lines 164-166 raises
    [SystemExit 1] on it, and [main] ends with status 1 when its training
    directory is empty although both artifacts loaded and no check of
    [create_docs] failed. *)
Theorem create_docs_count_of_last_file
    {F Image Tensor : Type} `{FloatOps F}
    (fs : FileSystem F Image Tensor) (utils : Utils F Image Tensor)
    (transform : Image -> Tensor) :
  (forall directory model pca mapping (w : World F) data n w',
     create_docs fs utils directory model pca transform mapping w
       = (Ok (Some data, n), w') ->
     n = last_num_features 0 data) /\
  (forall directory model pca mapping (w : World F),
     isdir fs directory = true ->
     listdir fs directory = Ok [] ->
     create_docs fs utils directory (Some model) (Some pca) transform mapping w
       = (Ok (Some [], 0), w) /\
     fst (check_docs (Some [], 0) w) = Raise (SystemExit 1)) /\
  (forall (cuda : bool) (w0 : World F) m p,
     load_vgg16 fs "saved-model/vgg16-weights.pth" (if cuda then Cuda else Cpu) = Ok m ->
     joblib_load fs "saved-model/pca.joblib" = Ok (Some p) ->
     isdir fs "static/cifar10/train" = true ->
     listdir fs "static/cifar10/train" = Ok [] ->
     fst (main fs utils cuda transform w0) = Raise (SystemExit 1) /\
     exit_status (fst (main fs utils cuda transform w0)) = 1%Z).
Proof.
  split; [|split].
  - intros directory model pca mapping w data n w' Hrun.
    destruct (create_docs_some_inv _ _ _ _ _ _ _ _ _ _ _ Hrun)
      as (m & p & files & _ & _ & _ & _ & _ & Hn).
    exact Hn.
  - intros directory model pca mapping w Hdir Hls.
    rewrite create_docs_run, Hls by assumption. split; [reflexivity|].
    now rewrite check_docs_exits by now right.
  - intros cuda w0 m p Hm Hp Hdir Hls.
    destruct (main_run fs utils cuda transform w0 m (Some p) Hm Hp) as (w1 & _ & _ & ->).
    unfold bind. rewrite create_docs_run, Hls by assumption. cbn [docs_of ret].
    rewrite check_docs_exits by now right. now split.
Qed.

Lemma create_docs_count_of_last_file_witness :
  create_docs (Demo.fs_with (Ok [])) models_utils Demo.train (Some Demo.hooked)
    (Some Demo.pca) Demo.transform label_mapping Demo.bound
  = (Ok (Some [], 0), Demo.bound) /\
  exit_status (fst (main (Demo.fs_with (Ok [])) models_utils false Demo.transform
                      initial_world)) = 1%Z /\
  last_num_features 0
    [ {| doc_id := "7"; doc_filename := "7-cat.png";
         doc_path := "static/cifar10/train/7-cat.png";
         doc_features := [7; 12; 0; 0; 0; 1; 0; 0; 0; 0; 0; 0]%Z |};
      {| doc_id := "8"; doc_filename := "8-ship.png";
         doc_path := "static/cifar10/train/8-ship.png";
         doc_features := [3; 30; 0; 0; 0; 0; 0; 0; 0; 0; 1; 0]%Z |} ] = 12.
Proof.
  destruct (create_docs_count_of_last_file (Demo.fs_with (Ok [])) models_utils
              Demo.transform) as (_ & Hempty & Hmain).
  split; [|split].
  - exact (proj1 (Hempty Demo.train Demo.hooked Demo.pca label_mapping Demo.bound
                    eq_refl eq_refl)).
  - exact (proj2 (Hmain false initial_world Demo.vgg16 Demo.pca
                    eq_refl eq_refl eq_refl eq_refl)).
  - destruct (create_docs_count_of_last_file Demo.fs models_utils Demo.transform)
      as (Hlast & _ & _).
    symmetry.
    refine (Hlast Demo.train (Some Demo.hooked) (Some Demo.pca) label_mapping
              Demo.bound _ 12 _ _).
    vm_compute. reflexivity.
Defined.

(* ===================================================================== *)
(** ** C9: parsing a file name never fails *)
(* ===================================================================== *)

(** C9.  The two slices of a file name are defined for every name and are
    no step at which the loop body can fail.  Without a dash, [find] gives
    -1, the ['id'] is the name without its last character and the label
    slice starts at 0; without a dot, [find] gives -1 and the label slice
    stops before the last character.  Whatever the name, the body returns
    the document as soon as the image opens, [device] is bound, [predict]
    and [pca.transform] return and [label_to_vector] accepts the label
    slice; and an exception of the body always comes from one of these
    steps, never from the parsing. *)
Theorem file_name_parsing_total
    {F Image Tensor : Type} `{FloatOps F}
    (fs : FileSystem F Image Tensor) (utils : Utils F Image Tensor)
    directory model pca (transform : Image -> Tensor) mapping (file : string) :
  (PyStr.contains "-" file = false ->
     PyStr.find file "-" = (-1)%Z /\
     id_str file = PyStr.drop_last file /\
     label_str file = PyStr.slice file 0 (PyStr.find file ".")) /\
  (PyStr.contains "." file = false ->
     PyStr.find file "." = (-1)%Z /\
     label_str file = PyStr.slice file (PyStr.find file "-" + 1) (-1)) /\
  (forall (w : World F) image dev w1 emb label_vec,
     image_open fs (PyStr.os_path_join directory file) = Ok image ->
     device w = Some dev ->
     predict utils (make_dataloader image transform) model dev w = (Ok tt, w1) ->
     pca_transform pca (hook_features w1) = Ok emb ->
     label_to_vector utils (label_str file) mapping = Ok label_vec ->
     loop_body fs utils directory model pca transform mapping file w
     = (Ok {| doc_id := id_str file;
              doc_filename := file;
              doc_path := PyStr.os_path_join directory file;
              doc_features := np_concatenate emb label_vec |}, w1)) /\
  (forall (w : World F) e w',
     loop_body fs utils directory model pca transform mapping file w = (Raise e, w') ->
     image_open fs (PyStr.os_path_join directory file) = Raise e \/
     (device w = None /\ e = NameError "device") \/
     (exists image dev,
        predict utils (make_dataloader image transform) model dev w = (Raise e, w')) \/
     pca_transform pca (hook_features w') = Raise e \/
     label_to_vector utils (label_str file) mapping = Raise e).
Proof.
  split; [|split; [|split]].
  - intros Hno.
    assert (Hfind : PyStr.find file "-" = (-1)%Z) by now apply find_from_absent.
    unfold id_str, label_str. rewrite Hfind.
    split; [reflexivity|]. split; [apply slice_to_minus_one | reflexivity].
  - intros Hno.
    assert (Hfind : PyStr.find file "." = (-1)%Z) by now apply find_from_absent.
    unfold label_str. now rewrite Hfind.
  - intros w image dev w1 emb lv Hopen Hdev Hpred Hpca Hlab.
    apply loop_body_intro. now apply steps_doc with image dev.
  - intros w e w' Hb. apply loop_body_inv in Hb.
    inversion Hb; subst; eauto 10.
Qed.

Lemma file_name_parsing_total_witness :
  PyStr.contains "-" "cat.png" = false /\
  id_str "cat.png" = "cat.pn" /\
  label_str "cat.png" = "cat" /\
  fst (loop_body Demo.fs models_utils Demo.train Demo.hooked Demo.pca
         Demo.transform label_mapping "cat.png" Demo.bound)
  = Ok {| doc_id := "cat.pn"; doc_filename := "cat.png";
          doc_path := "static/cifar10/train/cat.png";
          doc_features := [5; 24; 0; 0; 0; 1; 0; 0; 0; 0; 0; 0]%Z |}.
Proof.
  destruct (file_name_parsing_total Demo.fs models_utils Demo.train Demo.hooked
              Demo.pca Demo.transform label_mapping "cat.png")
    as (Hdash & _ & Hdoc & _).
  destruct (Hdash eq_refl) as (_ & Hid & Hlab).
  split; [reflexivity|]. split; [exact Hid|]. split; [rewrite Hlab; reflexivity|].
  rewrite (Hdoc Demo.bound [2; 6; 5]%Z Cpu
             (set_hook_features [[6; 14; 12]%Z] Demo.bound)
             [[5; 24]%Z] (one_hot 10 3)); reflexivity.
Defined.

(* ===================================================================== *)
(** ** C10: the free name [device] *)
(* ===================================================================== *)

(** C10, as stated, fails: a call made while [device] is unbound does not
    always end in a [NameError].  With a directory argument that is no
    directory the call returns [(None, 0)] from line 53, before line 74 is
    ever reached. *)
Lemma create_docs_unbound_device_may_return :
  ~ (forall (fs : FileSystem Z (list Z) (list Z)) (utils : Utils Z (list Z) (list Z))
       directory model pca transform mapping (w : World Z),
       device w = None ->
       exists w',
         create_docs fs utils directory model pca transform mapping w
         = (Raise (NameError "device"), w')).
Proof.
  intros Hall.
  destruct (Hall Demo.fs models_utils "nowhere" (Some Demo.hooked) (Some Demo.pca)
              Demo.transform label_mapping initial_world eq_refl) as [w' Hrun].
  vm_compute in Hrun. discriminate Hrun.
Qed.

(** C10, amended.  While [device] is unbound no call of [create_docs]
    returns a document; and a call that passes the three checks, whose
    directory lists at least one entry and whose first entry opens as an
    image, ends with [NameError] for the name [device], raised at the first
    [predict] call before the state has changed. *)
Theorem create_docs_unbound_device
    {F Image Tensor : Type} `{FloatOps F}
    (fs : FileSystem F Image Tensor) (utils : Utils F Image Tensor)
    directory model pca (transform : Image -> Tensor) mapping (w : World F) :
  device w = None ->
  (forall data n w',
     create_docs fs utils directory model pca transform mapping w
       = (Ok (Some data, n), w') ->
     data = []) /\
  (forall m p file rest image,
     model = Some m -> pca = Some p ->
     isdir fs directory = true ->
     listdir fs directory = Ok (file :: rest) ->
     image_open fs (PyStr.os_path_join directory file) = Ok image ->
     create_docs fs utils directory model pca transform mapping w
     = (Raise (NameError "device"), w)).
Proof.
  intros Hdev.
  assert (Hbody : forall m p file r w',
            loop_body fs utils directory m p transform mapping file w = (r, w') ->
            exists e, r = Raise e).
  { intros m p file r w' Hb. apply loop_body_inv in Hb.
    inversion Hb; subst; eauto; congruence. }
  split.
  - intros data n w' Hrun.
    destruct (create_docs_some_inv _ _ _ _ _ _ _ _ _ _ _ Hrun)
      as (m & p & files & _ & _ & _ & _ & Hd & _).
    destruct files as [|file rest].
    + cbn in Hd. unfold ret in Hd. now injection Hd as <- _.
    + cbn [docs_of] in Hd. unfold bind in Hd.
      destruct (loop_body fs utils directory m p transform mapping file w)
        as [r w1] eqn:Hb.
      destruct (Hbody _ _ _ _ _ Hb) as [e ->]. discriminate.
  - intros m p file rest image -> -> Hdir Hls Hopen.
    rewrite create_docs_run, Hls by assumption.
    cbn [docs_of]. unfold bind.
    rewrite (loop_body_intro fs utils directory m p transform mapping file w
               (Raise (NameError "device")) w); [reflexivity|].
    now apply steps_device_unbound with image.
Qed.

Lemma create_docs_unbound_device_witness :
  device (initial_world (F := Z)) = None /\
  create_docs Demo.fs models_utils Demo.train (Some Demo.hooked) (Some Demo.pca)
    Demo.transform label_mapping initial_world
  = (Raise (NameError "device"), initial_world).
Proof.
  split; [reflexivity|].
  refine (proj2 (create_docs_unbound_device Demo.fs models_utils Demo.train
                   (Some Demo.hooked) (Some Demo.pca) Demo.transform label_mapping
                   initial_world eq_refl)
            Demo.hooked Demo.pca "7-cat.png" ["8-ship.png"] [3; 1; 4]%Z
            eq_refl eq_refl eq_refl eq_refl eq_refl).
Defined.

(* ===================================================================== *)
(** ** One image per forward pass *)
(* ===================================================================== *)

Section SingleImage.
Context {F Image Tensor : Type} `{FloatOps F}.

(** The loader of lines 69-71 yields one batch, made of the one image. *)
Lemma batches_make_dataloader (image : Image) (transform : Image -> Tensor) :
  batches (make_dataloader image transform) = [[transform image]].
Proof. reflexivity. Qed.

Lemma predict_spec_make_dataloader {S} (image : Image) (transform : Image -> Tensor)
    (m : Model F Tensor S) dev (s : S) :
  predict_spec (make_dataloader image transform) m dev s
  = forward m [transform image] s.
Proof.
  unfold predict_spec. rewrite batches_make_dataloader.
  cbn [forward_all]. unfold bind, ret.
  now destruct (forward m [transform image] s) as [[[]|e] s'].
Qed.

Lemma set_hook_features_twice (a b : Ndarray F) (w : World F) :
  set_hook_features a (set_hook_features b w) = set_hook_features a w.
Proof. reflexivity. Qed.

(** Firing hooks that all come from [get_features] leaves the output in the
    buffer, and nothing else changed; without hooks nothing happens. *)
Lemma fire_get_features (hooks : list (Hook F Tensor (World F))) batch out w :
  Forall (fun h => h = get_features tt) hooks ->
  fold_left (fun s h => h batch out s) hooks w
  = match hooks with [] => w | _ => set_hook_features out w end.
Proof.
  intros Hall. revert w. induction Hall as [|h hooks -> Hall IH]; intros w.
  - reflexivity.
  - cbn [fold_left]. rewrite IH. unfold get_features.
    destruct hooks; [reflexivity | apply set_hook_features_twice].
Qed.

(** [predict] on the loader of one image, for a model whose hooks all come
    from [get_features]. *)
Lemma predict_spec_single (image : Image) (transform : Image -> Tensor)
    (m : Model F Tensor (World F)) dev w :
  only_get_features m ->
  predict_spec (make_dataloader image transform) m dev w
  = (Ok tt,
     match forward_hooks m with
     | [] => w
     | _ => set_hook_features [layer_output m (transform image)] w
     end).
Proof.
  intros Hall. rewrite predict_spec_make_dataloader.
  unfold forward, modify. now rewrite fire_get_features.
Qed.
End SingleImage.

(* ===================================================================== *)
(** ** C7: one image per [predict] call *)
(* ===================================================================== *)



(* ===================================================================== *)
(** ** The loop body with [predict] and [label_to_vector] as modelled *)
(* ===================================================================== *)

Section ModelledBody.
Context {F Image Tensor : Type} `{FloatOps F}.
Variable fs : FileSystem F Image Tensor.
Variable directory : string.
Variable model : Model F Tensor (World F).
Variable pca : PCA F.
Variable transform : Image -> Tensor.
Variable mapping : gmap string nat.

Local Abbreviation body := (loop_body fs models_utils directory model pca transform mapping).

(** The state a body leaves, whatever its outcome. *)
Lemma loop_body_world file w r w' :
  only_get_features model ->
  body file w = (r, w') ->
  w' = w \/
  exists image,
    image_open fs (PyStr.os_path_join directory file) = Ok image /\
    forward_hooks model <> [] /\
    w' = set_hook_features [layer_output model (transform image)] w.
Proof.
  intros Hall Hb. apply loop_body_inv in Hb.
  inversion Hb as [ | | image dev e w1 Hopen Hdev Hpred
                  | image dev e w1 Hopen Hdev Hpred
                  | image dev emb e w1 Hopen Hdev Hpred
                  | image dev emb lv w1 Hopen Hdev Hpred ]; subst; auto;
    cbn [predict models_utils] in Hpred;
    rewrite predict_spec_single in Hpred by assumption.
  all: first [ discriminate Hpred | injection Hpred as <- ].
  all: destruct (forward_hooks model) as [|h hooks]; [now left | right].
  all: exists image; split; [assumption | split; [discriminate | reflexivity]].
Qed.

(** The document a body returns. *)
Lemma loop_body_modelled file w doc w' :
  only_get_features model ->
  body file w = (Ok doc, w') ->
  exists image emb i,
    image_open fs (PyStr.os_path_join directory file) = Ok image /\
    w' = match forward_hooks model with
         | [] => w
         | _ => set_hook_features [layer_output model (transform image)] w
         end /\
    pca_transform pca (hook_features w') = Ok emb /\
    mapping !! label_str file = Some i /\
    doc_filename doc = file /\
    doc_features doc = np_concatenate emb (one_hot (size mapping) i).
Proof.
  intros Hall Hb. apply loop_body_inv in Hb.
  inversion Hb as [| | | | |image dev emb lv w1 Hopen Hdev Hpred Hpca Hlab]; subst.
  cbn [predict label_to_vector models_utils] in Hpred, Hlab.
  rewrite predict_spec_single in Hpred by assumption. injection Hpred as <-.
  unfold label_to_vector_spec in Hlab.
  destruct (mapping !! label_str file) as [i|] eqn:Hi; [|discriminate].
  destruct (i <? size mapping); [|discriminate]. injection Hlab as <-.
  now exists image, emb, i.
Qed.

(** [pca.transform] on an array of at most one row. *)
Lemma pca_transform_single (X emb : Ndarray F) :
  length X <= 1 ->
  pca_transform pca X = Ok emb ->
  exists row, X = [row] /\ emb = [project pca row].
Proof.
  intros Hlen Hpca. destruct X as [|row [|row' X]]; cbn in Hlen; [discriminate| |lia].
  unfold pca_transform in Hpca.
  destruct (forallb _ _); [|discriminate]. injection Hpca as <-. now exists row.
Qed.

Lemma np_concatenate_single (row label_vec : list F) :
  np_concatenate [row] label_vec = row ++ label_vec.
Proof. unfold np_concatenate. cbn. now rewrite app_nil_r. Qed.


End ModelledBody.

(** With the helpers as modelled, the per-file steps do succeed under
    conditions on the inputs alone: the hook is registered, [device] is
    bound, every entry opens as an image whose hooked-layer output has the
    width the PCA was fitted on, and every label slice is a key of the
    mapping with an index below the number of classes. *)
Lemma modelled_steps_succeed
    {F Image Tensor : Type} `{FloatOps F}
    (fs : FileSystem F Image Tensor)
    directory (model : Model F Tensor (World F)) pca (transform : Image -> Tensor)
    mapping files (w : World F) :
  hooked_by_get_features model ->
  device w <> None ->
  Forall (fun file =>
            exists image i,
              image_open fs (PyStr.os_path_join directory file) = Ok image /\
              length (layer_output model (transform image)) = n_features_in_ pca /\
              mapping !! label_str file = Some i /\
              i < size mapping)
         files ->
  steps_succeed fs models_utils directory model pca transform mapping files w = true.
Proof.
  intros [Hne Hall] Hdev Hfiles. revert w Hdev.
  induction Hfiles as [|file rest (image & i & Hopen & Hwidth & Hi & Hlt) _ IH];
    intros w Hdev; [reflexivity|].
  cbn [steps_succeed].
  destruct (device w) as [dev|] eqn:Hd; [|congruence].
  rewrite (loop_body_intro fs models_utils directory model pca transform mapping file w
             (Ok {| doc_id := id_str file;
                    doc_filename := file;
                    doc_path := PyStr.os_path_join directory file;
                    doc_features :=
                      np_concatenate [project pca (layer_output model (transform image))]
                        (one_hot (size mapping) i) |})
             (set_hook_features [layer_output model (transform image)] w)).
  - apply IH. cbn. congruence.
  - apply steps_doc with image dev; try assumption.
    + cbn [predict models_utils]. rewrite predict_spec_single by assumption.
      now destruct (forward_hooks model).
    + cbn [hook_features set_hook_features]. unfold pca_transform. cbn [forallb].
      apply Nat.eqb_eq in Hwidth. now rewrite Hwidth.
    + cbn [label_to_vector models_utils]. unfold label_to_vector_spec. rewrite Hi.
      apply Nat.ltb_lt in Hlt. now rewrite Hlt.
Qed.

(* ===================================================================== *)
(** ** C6: the hook buffer *)
(* ===================================================================== *)

(** C6.  The hook returned by [get_features] overwrites [hook_features]
    with the output it is given and touches nothing else.  For a model that
    carries this hook, in a run of [create_docs] past its three checks:
    whatever the outcome, [device] and the log are as before, so the buffer
    is the only module state that changed; and when documents are returned,
    the embedding in the document of each entry is the PCA projection of the
    hooked layer's output for the image of that very entry, followed by the
    one-hot vector of its label. *)
Theorem hook_buffer_feeds_each_document
    {F Image Tensor : Type} `{FloatOps F}
    (fs : FileSystem F Image Tensor)
    directory (model : Model F Tensor (World F)) pca (transform : Image -> Tensor)
    mapping files (w : World F) :
  hooked_by_get_features model ->
  isdir fs directory = true ->
  listdir fs directory = Ok files ->
  (forall (input : list Tensor) output (w0 : World F),
     hook_features (get_features tt input output w0) = output /\
     device (get_features tt input output w0) = device w0 /\
     log (get_features tt input output w0) = log w0) /\
  (forall r w',
     create_docs fs models_utils directory (Some model) (Some pca) transform mapping w
       = (r, w') ->
     device w' = device w /\ log w' = log w) /\
  (forall data n w',
     create_docs fs models_utils directory (Some model) (Some pca) transform mapping w
       = (Ok (Some data, n), w') ->
     Forall2 (fun file doc =>
                exists image i,
                  image_open fs (PyStr.os_path_join directory file) = Ok image /\
                  mapping !! label_str file = Some i /\
                  doc_features doc
                  = project pca (layer_output model (transform image))
                    ++ one_hot (size mapping) i)
             files data).
Proof.
  intros [Hne Hall] Hdir Hls. split; [|split].
  - intros input output w0. now repeat split.
  - intros r w' Hrun. rewrite create_docs_run, Hls in Hrun by assumption.
    assert (Hinv : forall r0 w1,
              docs_of fs models_utils directory model pca transform mapping files w
                = (r0, w1) ->
              device w1 = device w /\ log w1 = log w).
    { intros r0 w1.
      apply (docs_of_invariant fs models_utils directory model pca transform mapping
               (fun w0 => device w0 = device w /\ log w0 = log w)); [|now split].
      intros file w0 rb wb [Hd Hl] Hb.
      destruct (loop_body_world _ _ _ _ _ _ _ _ _ _ Hall Hb)
        as [-> | (image & _ & _ & ->)]; now split. }
    destruct (docs_of fs models_utils directory model pca transform mapping files w)
      as [[ds|e] w1] eqn:Hd; injection Hrun as <- <-; exact (Hinv _ _ eq_refl).
  - intros data n w' Hrun.
    destruct (create_docs_some_inv _ _ _ _ _ _ _ _ _ _ _ Hrun)
      as (m & p & files' & [= <-] & [= <-] & _ & Hls' & Hd & _).
    rewrite Hls in Hls'. injection Hls' as <-.
    refine (proj1 (docs_of_Forall2 fs models_utils directory model pca transform
                     mapping (fun _ => True) _ files w data w' _ I Hd)).
    intros file w0 doc w1 _ Hb. split; [|exact I].
    destruct (loop_body_modelled _ _ _ _ _ _ _ _ _ _ Hall Hb)
      as (image & emb & i & Hopen & Hw1 & Hpca & Hi & _ & Hfeat).
    exists image, i. split; [assumption|]. split; [assumption|].
    destruct (forward_hooks model) as [|h hooks]; [congruence|].
    subst w1. cbn [hook_features set_hook_features] in Hpca.
    apply pca_transform_single in Hpca as (row & [= <-] & ->); [|reflexivity].
    now rewrite Hfeat, np_concatenate_single.
Qed.

Lemma hook_buffer_feeds_each_document_witness :
  device (snd (create_docs Demo.fs models_utils Demo.train (Some Demo.hooked)
                 (Some Demo.pca) Demo.transform label_mapping Demo.bound))
  = Some Cpu /\
  Forall2 (fun file (doc : Doc Z) =>
             exists image i,
               image_open Demo.fs (PyStr.os_path_join Demo.train file) = Ok image /\
               label_mapping !! label_str file = Some i /\
               doc_features doc
               = project Demo.pca (layer_output Demo.hooked (Demo.transform image))
                 ++ one_hot 10 i)
    ["7-cat.png"; "8-ship.png"]
    [ {| doc_id := "7"; doc_filename := "7-cat.png";
         doc_path := "static/cifar10/train/7-cat.png";
         doc_features := [7; 12; 0; 0; 0; 1; 0; 0; 0; 0; 0; 0]%Z |};
      {| doc_id := "8"; doc_filename := "8-ship.png";
         doc_path := "static/cifar10/train/8-ship.png";
         doc_features := [3; 30; 0; 0; 0; 0; 0; 0; 0; 0; 1; 0]%Z |} ].
Proof.
  destruct (hook_buffer_feeds_each_document Demo.fs Demo.train Demo.hooked Demo.pca
              Demo.transform label_mapping ["7-cat.png"; "8-ship.png"] Demo.bound)
    as (_ & Hframe & Hdocs).
  - split; [discriminate|]. repeat constructor.
  - reflexivity.
  - reflexivity.
  - split.
    + exact (proj1 (Hframe _ _ (surjective_pairing _))).
    + refine (Hdocs _ 12 _ _). vm_compute. reflexivity.
Defined.

(* ===================================================================== *)
(** ** C3: the feature vector and its length *)
(* ===================================================================== *)



(* ===================================================================== *)
(** ** More on file names: what the two slices can hold *)
(* ===================================================================== *)

Section SliceFacts.
Import PyStr.

(** A string that holds [c] splits at the first [c]. *)
Lemma split_at_first c s :
  contains c s = true ->
  exists pre rest, s = pre +:+ String c rest /\ contains c pre = false.
Proof.
  induction s as [|a s IH]; cbn [contains]; [discriminate|].
  destruct (Ascii.eqb a c) eqn:Ha; cbn [orb].
  - intros _. apply Ascii.eqb_eq in Ha as ->. now exists EmptyString, s.
  - intros Hs. destruct (IH Hs) as (pre & rest & -> & Hpre).
    exists (String a pre), rest. split; [reflexivity|].
    cbn [contains]. now rewrite Ha.
Qed.

(** A part of a string without [c] is without [c]. *)
Lemma contains_substring c a n s :
  contains c s = false -> contains c (substring a n s) = false.
Proof.
  revert a n. induction s as [|x s IH]; intros a n Hs.
  - now destruct a, n.
  - cbn [contains] in Hs. apply orb_false_iff in Hs as [Hx Hs].
    destruct a as [|a]; [destruct n as [|n]|]; cbn [substring contains].
    + reflexivity.
    + now rewrite Hx, IH.
    + now apply IH.
Qed.

(** A range that ends within a prefix only sees the prefix. *)
Lemma substring_append_l a n pre rest :
  a + n <= String.length pre ->
  substring a n (pre +:+ rest) = substring a n pre.
Proof.
  revert a n. induction pre as [|x pre IH]; intros a n Hlen.
  - cbn in Hlen. assert (a = 0) as -> by lia. assert (n = 0) as -> by lia.
    now destruct rest.
  - change (String x pre +:+ rest) with (String x (pre +:+ rest)).
    cbn [String.length] in Hlen.
    destruct a as [|a]; [destruct n as [|n]|]; cbn [substring].
    + reflexivity.
    + now rewrite IH by lia.
    + apply IH. lia.
Qed.

Lemma drop_last_prefix s : exists t, s = drop_last s +:+ t.
Proof.
  induction s as [|a s [t IH]]; [now exists EmptyString|].
  destruct s as [|b s]; [now exists (String a EmptyString)|].
  exists t. change (String a (String b s) = String a (drop_last (String b s) +:+ t)).
  now rewrite <- IH.
Qed.

Lemma contains_drop_last c s : contains c s = false -> contains c (drop_last s) = false.
Proof.
  intros Hs. rewrite <- substring_drop_last. now apply contains_substring.
Qed.

Lemma clip_bounds n i : (0 <= n)%Z -> (0 <= clip n i <= n)%Z.
Proof. intros Hn. unfold clip. destruct (Z.ltb_spec i 0); lia. Qed.

(** Line 89 on any name: a prefix of the name that holds no dash. *)
Lemma id_str_prefix_no_dash file :
  contains "-" (id_str file) = false /\ exists rest, file = id_str file +:+ rest.
Proof.
  destruct (contains "-" file) eqn:Hc.
  - destruct (split_at_first _ _ Hc) as (pre & rest & -> & Hpre).
    rewrite id_str_of_form by assumption. split; [assumption | now eexists].
  - assert (Hid : id_str file = drop_last file).
    { unfold id_str, find. rewrite find_from_absent by assumption.
      apply slice_to_minus_one. }
    rewrite Hid. split; [now apply contains_drop_last | apply drop_last_prefix].
Qed.

(** Line 81 on any name: a string that holds no dot. *)
Lemma label_str_no_dot file : contains "." (label_str file) = false.
Proof.
  destruct (contains "." file) eqn:Hc.
  - destruct (split_at_first _ _ Hc) as (pre & rest & -> & Hpre).
    unfold label_str, slice.
    replace (find (pre +:+ String "." rest) ".") with (Z.of_nat (String.length pre))
      by (unfold find; rewrite find_from_prefix by assumption; lia).
    set (n := Z.of_nat (String.length (pre +:+ String "." rest))).
    set (a := clip n (find (pre +:+ String "." rest) "-" + 1)).
    assert (Hn : (Z.of_nat (String.length pre) < n)%Z)
      by (subst n; rewrite length_append; cbn [String.length]; lia).
    assert (Ha : (0 <= a <= n)%Z) by (apply clip_bounds; lia).
    rewrite (clip_inside n (Z.of_nat (String.length pre))) by lia.
    destruct (Z.le_gt_cases a (Z.of_nat (String.length pre))) as [Hle|Hgt].
    + rewrite substring_append_l by lia. now apply contains_substring.
    + replace (Z.to_nat (Z.of_nat (String.length pre) - a)) with 0 by lia.
      generalize (Z.to_nat a) (pre +:+ String "." rest). clear.
      intros k s. revert k. induction s as [|x s IH]; intros [|k]; cbn; auto.
  - unfold label_str, slice. now apply contains_substring.
Qed.
End SliceFacts.

(* ===================================================================== *)
(** ** Every returned document comes from one run of the loop body *)
(* ===================================================================== *)

Section ReturnedDocuments.
Context {F Image Tensor : Type} `{FloatOps F}.
Variable fs : FileSystem F Image Tensor.
Variable utils : Utils F Image Tensor.

Lemma lookup_map {A B} (f : A -> B) (l : list A) k :
  map f l !! k = f <$> (l !! k).
Proof.
  revert k. induction l as [|x l IH]; intros [|k]; cbn; auto.
Qed.

Lemma create_docs_doc_from_body
    directory model pca (transform : Image -> Tensor) mapping (w : World F)
    data n w' doc :
  create_docs fs utils directory model pca transform mapping w
    = (Ok (Some data, n), w') ->
  doc ∈ data ->
  exists m p files file w0 w1,
    model = Some m /\ pca = Some p /\
    listdir fs directory = Ok files /\ file ∈ files /\
    loop_body fs utils directory m p transform mapping file w0 = (Ok doc, w1).
Proof.
  intros Hrun Hdoc.
  destruct (create_docs_some_inv _ _ _ _ _ _ _ _ _ _ _ Hrun)
    as (m & p & files & -> & -> & _ & Hls & Hd & _).
  destruct (docs_of_Forall2 fs utils directory m p transform mapping
              (fun _ => True)
              (fun f d => exists w0 w1,
                 loop_body fs utils directory m p transform mapping f w0 = (Ok d, w1))
              files w data w') as [HF _]; [|exact I|exact Hd|].
  { intros f w0 d w1 _ Hb. split; [now exists w0, w1 | exact I]. }
  apply list_elem_of_lookup in Hdoc as [k Hk].
  destruct (Forall2_lookup_r _ _ _ _ _ HF Hk) as (file & Hfile & w0 & w1 & Hb).
  exists m, p, files, file, w0, w1. repeat split; try assumption.
  apply list_elem_of_lookup. now exists k.
Qed.

(** The names, paths and ids of a returned list, entry by entry. *)
Lemma create_docs_fields
    directory model pca (transform : Image -> Tensor) mapping (w : World F)
    data n w' :
  create_docs fs utils directory model pca transform mapping w
    = (Ok (Some data, n), w') ->
  exists files,
    listdir fs directory = Ok files /\
    map doc_filename data = files /\
    map doc_path data = map (PyStr.os_path_join directory) files /\
    map doc_id data = map id_str files.
Proof.
  intros Hrun.
  destruct (create_docs_some_inv _ _ _ _ _ _ _ _ _ _ _ Hrun)
    as (m & p & files & _ & _ & _ & Hls & Hd & _).
  exists files. split; [assumption|].
  exact (docs_of_filenames _ _ _ _ _ _ _ _ _ _ _ Hd).
Qed.
End ReturnedDocuments.

(* ===================================================================== *)
(** ** X: what [create_docs] returns, read off lines 51-96 *)
(* ===================================================================== *)

(** X1.  [None] is returned only by the three early returns: whenever the
    first value of [create_docs] is [None], the second is 0, one of the
    three checks failed, and the state is the one found plus a single error
    record, whose text is that of the first check that failed in the order
    directory, model, PCA. *)
Theorem create_docs_none_only_from_checks
    {F Image Tensor : Type} `{FloatOps F}
    (fs : FileSystem F Image Tensor) (utils : Utils F Image Tensor)
    directory model pca (transform : Image -> Tensor) mapping (w : World F) n w' :
  create_docs fs utils directory model pca transform mapping w = (Ok (None, n), w') ->
  n = 0 /\
  (isdir fs directory = false \/ model = None \/ pca = None) /\
  w' = add_log ERROR
         (if negb (isdir fs directory)
          then "Provided path doesn't exist or isn't a directory ..."
          else match model with
               | None => "Provided deep-learning model is None ..."
               | Some _ => "Provided PCA model is None ..."
               end) w.
Proof.
  intros Hrun.
  destruct (isdir fs directory) eqn:Hdir.
  - destruct model as [m|], pca as [p|].
    + rewrite create_docs_run in Hrun by assumption.
      destruct (listdir fs directory) as [files|e]; [|discriminate].
      destruct (docs_of fs utils directory m p transform mapping files w)
        as [[ds|e] w1]; discriminate.
    + unfold create_docs in Hrun. rewrite Hdir in Hrun. injection Hrun as <- <-. auto.
    + unfold create_docs in Hrun. rewrite Hdir in Hrun. injection Hrun as <- <-. auto.
    + unfold create_docs in Hrun. rewrite Hdir in Hrun. injection Hrun as <- <-. auto.
  - unfold create_docs in Hrun. rewrite Hdir in Hrun. injection Hrun as <- <-. auto.
Qed.

Lemma create_docs_none_only_from_checks_witness :
  log (snd (create_docs Demo.fs models_utils "nowhere" None None Demo.transform
              label_mapping initial_world))
  = [(ERROR, "Provided path doesn't exist or isn't a directory ...")].
Proof.
  destruct (create_docs_none_only_from_checks Demo.fs models_utils "nowhere"
              None None Demo.transform label_mapping initial_world 0
              (snd (create_docs Demo.fs models_utils "nowhere" None None
                      Demo.transform label_mapping initial_world)) eq_refl)
    as (_ & _ & ->).
  reflexivity.
Defined.

(** X2.  A returned list is never partial: whenever [create_docs] returns a
    list of documents, the directory listing succeeded, the file names of the
    list are the whole listing in listing order, and the path and the id of
    document [k] are those computed from entry [k]. *)
Theorem create_docs_returns_whole_listing
    {F Image Tensor : Type} `{FloatOps F}
    (fs : FileSystem F Image Tensor) (utils : Utils F Image Tensor)
    directory model pca (transform : Image -> Tensor) mapping (w : World F)
    data n w' :
  create_docs fs utils directory model pca transform mapping w
    = (Ok (Some data, n), w') ->
  exists files,
    listdir fs directory = Ok files /\
    length data = length files /\
    map doc_filename data = files /\
    forall k file,
      files !! k = Some file ->
      exists doc,
        data !! k = Some doc /\
        doc_path doc = PyStr.os_path_join directory file /\
        doc_id doc = id_str file.
Proof.
  intros Hrun.
  destruct (create_docs_fields _ _ _ _ _ _ _ _ _ _ _ Hrun)
    as (files & Hls & Hn & Hp & Hi).
  exists files. split; [assumption|].
  assert (Hlen : length data = length files)
    by (rewrite <- Hn; now rewrite length_map).
  split; [assumption|]. split; [assumption|].
  intros k file Hk.
  destruct (lookup_lt_is_Some_2 data k) as [doc Hdoc].
  { rewrite Hlen. now apply lookup_lt_Some with file. }
  exists doc. split; [assumption|].
  assert (Hpk : map doc_path data !! k = Some (doc_path doc))
    by (rewrite lookup_map, Hdoc; reflexivity).
  assert (Hik : map doc_id data !! k = Some (doc_id doc))
    by (rewrite lookup_map, Hdoc; reflexivity).
  rewrite Hp, lookup_map, Hk in Hpk. rewrite Hi, lookup_map, Hk in Hik.
  cbn in Hpk, Hik. split; congruence.
Qed.

Lemma create_docs_returns_whole_listing_witness :
  exists data : list (Doc Z),
    map doc_filename data = ["7-cat.png"; "8-ship.png"] /\ length data = 2.
Proof.
  let r := eval vm_compute in
    (create_docs Demo.fs models_utils Demo.train (Some Demo.hooked) (Some Demo.pca)
       Demo.transform label_mapping Demo.bound) in
  match r with
  | (Ok (Some ?data, ?n), ?w') =>
    destruct (create_docs_returns_whole_listing Demo.fs models_utils Demo.train
                (Some Demo.hooked) (Some Demo.pca) Demo.transform label_mapping
                Demo.bound data n w')
      as (files & Hls & Hlen & Hnames & _);
      [vm_compute; reflexivity|exists data]
  end.
  injection Hls as <-. split; [exact Hnames | exact Hlen].
Defined.

Section DocumentFacts.
Context {F : Type} `{FloatOps F}.



Lemma append_cancel_l s a b : s +:+ a = s +:+ b -> a = b.
Proof.
  induction s as [|x s IH]; [trivial|].
  change (String x (s +:+ a) = String x (s +:+ b) -> a = b).
  intros [= Heq]. now apply IH.
Qed.

(** For entries that do not start with a slash, joining with a fixed
    directory loses nothing. *)
Lemma os_path_join_inj directory f1 f2 :
  PyStr.startswith f1 "/" = false ->
  PyStr.startswith f2 "/" = false ->
  PyStr.os_path_join directory f1 = PyStr.os_path_join directory f2 ->
  f1 = f2.
Proof.
  intros H1 H2. unfold PyStr.os_path_join. rewrite H1, H2.
  destruct ((String.length directory =? 0) || PyStr.endswith directory "/").
  - apply append_cancel_l.
  - intros Heq. apply append_cancel_l in Heq. now apply (append_cancel_l "/") in Heq.
Qed.

Lemma NoDup_map_on {A B} (f : A -> B) (l : list A) :
  (forall x y, x ∈ l -> y ∈ l -> f x = f y -> x = y) ->
  NoDup l -> NoDup (map f l).
Proof.
  intros Hinj Hnd. induction Hnd as [|x l Hx Hnd IH]; [constructor|].
  cbn [map]. constructor.
  - intros Hin. apply list_elem_of_In, in_map_iff in Hin as (y & Hy & Hin).
    apply list_elem_of_In in Hin.
    assert (y = x) as -> by (apply Hinj; [now right | now left | assumption]).
    contradiction.
  - apply IH. intros a b Ha Hb. apply Hinj; now right.
Qed.
End DocumentFacts.



(** X4.  Whatever the file name, the ['id'] of its document is a prefix of
    the name that holds no dash, and the label slice handed to
    [label_to_vector] holds no dot. *)
Theorem document_id_and_label_shape
    {F Image Tensor : Type} `{FloatOps F}
    (fs : FileSystem F Image Tensor) (utils : Utils F Image Tensor)
    directory model pca (transform : Image -> Tensor) mapping (w : World F)
    data n w' doc :
  create_docs fs utils directory model pca transform mapping w
    = (Ok (Some data, n), w') ->
  doc ∈ data ->
  PyStr.contains "-" (doc_id doc) = false /\
  (exists rest, doc_filename doc = doc_id doc +:+ rest) /\
  exists emb label_vec,
    PyStr.contains "." (label_str (doc_filename doc)) = false /\
    label_to_vector utils (label_str (doc_filename doc)) mapping = Ok label_vec /\
    doc_features doc = np_concatenate emb label_vec.
Proof.
  intros Hrun Hdoc.
  destruct (create_docs_doc_from_body _ _ _ _ _ _ _ _ _ _ _ _ Hrun Hdoc)
    as (m & p & files & file & w0 & w1 & _ & _ & _ & _ & Hb).
  destruct (loop_body_doc _ _ _ _ _ _ _ _ _ _ _ Hb)
    as (Hid & Hname & _ & emb & lv & Hlab & Hfeat).
  rewrite Hid, Hname.
  destruct (id_str_prefix_no_dash file) as [Hdash Hprefix].
  split; [assumption|]. split; [assumption|].
  exists emb, lv. split; [apply label_str_no_dot|]. now split.
Qed.

Lemma document_id_and_label_shape_witness :
  PyStr.contains "-" "cat.pn" = false /\ exists rest, "cat.png" = "cat.pn" +:+ rest.
Proof.
  pose (fs := Demo.fs_with (Ok ["cat.png"])).
  pose (doc := {| doc_id := "cat.pn"; doc_filename := "cat.png";
                  doc_path := "static/cifar10/train/cat.png";
                  doc_features := [5; 24; 0; 0; 0; 1; 0; 0; 0; 0; 0; 0]%Z |}).
  let r := eval vm_compute in
    (create_docs fs models_utils Demo.train (Some Demo.hooked) (Some Demo.pca)
       Demo.transform label_mapping Demo.bound) in
  match r with
  | (Ok (Some ?data, ?n), ?w') =>
    destruct (document_id_and_label_shape fs models_utils Demo.train
                (Some Demo.hooked) (Some Demo.pca) Demo.transform label_mapping
                Demo.bound data n w' doc)
      as (Hdash & Hprefix & _)
  end.
  - vm_compute. reflexivity.
  - apply list_elem_of_In. left. reflexivity.
  - split; [exact Hdash | exact Hprefix].
Defined.

Section ReturnedLookup.
Context {F Image Tensor : Type} `{FloatOps F}.
Variable fs : FileSystem F Image Tensor.
Variable utils : Utils F Image Tensor.

(** The document at the position of an entry. *)
Lemma create_docs_lookup
    directory model pca (transform : Image -> Tensor) mapping (w : World F)
    data n w' files k file :
  create_docs fs utils directory model pca transform mapping w
    = (Ok (Some data, n), w') ->
  listdir fs directory = Ok files ->
  files !! k = Some file ->
  exists doc,
    data !! k = Some doc /\ doc_filename doc = file /\
    doc_path doc = PyStr.os_path_join directory file /\
    doc_id doc = id_str file.
Proof.
  intros Hrun Hls Hk.
  destruct (create_docs_fields _ _ _ _ _ _ _ _ _ _ _ Hrun)
    as (files' & Hls' & Hn & Hp & Hi).
  rewrite Hls in Hls'. injection Hls' as <-.
  destruct (lookup_lt_is_Some_2 data k) as [doc Hdoc].
  { rewrite <- (length_map doc_filename), Hn. now apply lookup_lt_Some with file. }
  exists doc. split; [assumption|].
  pose proof (lookup_map doc_filename data k) as En.
  pose proof (lookup_map doc_path data k) as Ep.
  pose proof (lookup_map doc_id data k) as Ei.
  rewrite Hdoc in En, Ep, Ei.
  rewrite Hn, Hk in En. rewrite Hp, lookup_map, Hk in Ep.
  rewrite Hi, lookup_map, Hk in Ei. cbn in En, Ep, Ei.
  repeat split; congruence.
Qed.
End ReturnedLookup.

(** X5.  The ['id'] is not a key: two entries of the listing that agree up
    to their first dash, such as [7-cat.png] and [7-dog.jpg], give two
    documents with the same ['id'], whatever follows the dash. *)
Theorem documents_share_id
    {F Image Tensor : Type} `{FloatOps F}
    (fs : FileSystem F Image Tensor) (utils : Utils F Image Tensor)
    directory model pca (transform : Image -> Tensor) mapping (w : World F)
    data n w' files k1 k2 pre rest1 rest2 :
  create_docs fs utils directory model pca transform mapping w
    = (Ok (Some data, n), w') ->
  listdir fs directory = Ok files ->
  files !! k1 = Some (pre +:+ "-" +:+ rest1) ->
  files !! k2 = Some (pre +:+ "-" +:+ rest2) ->
  PyStr.contains "-" pre = false ->
  exists doc1 doc2,
    data !! k1 = Some doc1 /\ data !! k2 = Some doc2 /\
    doc_filename doc1 = pre +:+ "-" +:+ rest1 /\
    doc_filename doc2 = pre +:+ "-" +:+ rest2 /\
    doc_id doc1 = pre /\ doc_id doc2 = pre.
Proof.
  intros Hrun Hls Hk1 Hk2 Hpre.
  destruct (create_docs_lookup _ _ _ _ _ _ _ _ _ _ _ _ _ _ Hrun Hls Hk1)
    as (doc1 & Hd1 & Hn1 & _ & Hi1).
  destruct (create_docs_lookup _ _ _ _ _ _ _ _ _ _ _ _ _ _ Hrun Hls Hk2)
    as (doc2 & Hd2 & Hn2 & _ & Hi2).
  exists doc1, doc2. repeat split; try assumption.
  - rewrite Hi1. now apply (id_str_of_form pre rest1).
  - rewrite Hi2. now apply (id_str_of_form pre rest2).
Qed.

Lemma documents_share_id_witness :
  exists doc1 doc2 : Doc Z,
    doc_filename doc1 = "7-cat.png" /\ doc_filename doc2 = "7-ship.png" /\
    doc_id doc1 = "7" /\ doc_id doc2 = "7".
Proof.
  pose (fs := {| isdir := fun _ => true;
                 listdir := fun _ => Ok ["7-cat.png"; "7-ship.png"];
                 image_open := fun _ => Ok [3; 1; 4]%Z;
                 load_vgg16 := fun _ _ => Ok Demo.vgg16;
                 joblib_load := fun _ => Ok (Some Demo.pca) |}
        : FileSystem Z (list Z) (list Z)).
  let r := eval vm_compute in
    (create_docs fs models_utils Demo.train (Some Demo.hooked) (Some Demo.pca)
       Demo.transform label_mapping Demo.bound) in
  match r with
  | (Ok (Some ?data, ?n), ?w') =>
    destruct (documents_share_id fs models_utils Demo.train
                (Some Demo.hooked) (Some Demo.pca) Demo.transform label_mapping
                Demo.bound data n w' ["7-cat.png"; "7-ship.png"] 0 1
                "7" "cat.png" "ship.png")
      as (doc1 & doc2 & _ & _ & Hn1 & Hn2 & Hi1 & Hi2)
  end.
  - vm_compute. reflexivity.
  - reflexivity.
  - reflexivity.
  - reflexivity.
  - reflexivity.
  - exists doc1, doc2. repeat split; assumption.
Defined.

(** X6.  The ['path'] is a key: for a listing without repetition whose
    entries do not start with a slash, as [os.listdir] gives them, the
    returned documents have pairwise distinct paths. *)
Theorem document_paths_distinct
    {F Image Tensor : Type} `{FloatOps F}
    (fs : FileSystem F Image Tensor) (utils : Utils F Image Tensor)
    directory model pca (transform : Image -> Tensor) mapping (w : World F)
    data n w' files :
  create_docs fs utils directory model pca transform mapping w
    = (Ok (Some data, n), w') ->
  listdir fs directory = Ok files ->
  NoDup files ->
  Forall (fun file => PyStr.startswith file "/" = false) files ->
  NoDup (map doc_path data).
Proof.
  intros Hrun Hls Hnd Hslash.
  destruct (create_docs_fields _ _ _ _ _ _ _ _ _ _ _ Hrun)
    as (files' & Hls' & _ & Hp & _).
  rewrite Hls in Hls'. injection Hls' as <-. rewrite Hp.
  apply NoDup_map_on; [|assumption].
  rewrite Forall_forall in Hslash.
  intros f1 f2 H1 H2. apply os_path_join_inj; auto.
Qed.

Lemma document_paths_distinct_witness :
  NoDup ["static/cifar10/train/7-cat.png"; "static/cifar10/train/8-ship.png"].
Proof.
  let r := eval vm_compute in
    (create_docs Demo.fs models_utils Demo.train (Some Demo.hooked) (Some Demo.pca)
       Demo.transform label_mapping Demo.bound) in
  match r with
  | (Ok (Some ?data, ?n), ?w') =>
    apply (document_paths_distinct Demo.fs models_utils Demo.train
             (Some Demo.hooked) (Some Demo.pca) Demo.transform label_mapping
             Demo.bound data n w' ["7-cat.png"; "8-ship.png"])
  end.
  - vm_compute. reflexivity.
  - reflexivity.
  - apply NoDup_ListNoDup.
    constructor; [intros [E|[]]; discriminate E|].
    constructor; [intros []|]. constructor.
  - repeat constructor.
Defined.

(* ===================================================================== *)
(** ** X: the module state across a call *)
(* ===================================================================== *)

(** X7.  [create_docs] writes no module state of its own: a property of the
    state that every [predict] call preserves and that one more error record
    in the log does not break holds after the call if it held before,
    whether the call returns the pair [(None, 0)], returns documents or
    raises. *)
Theorem create_docs_state_only_through_predict
    {F Image Tensor : Type} `{FloatOps F}
    (fs : FileSystem F Image Tensor) (utils : Utils F Image Tensor)
    directory model pca (transform : Image -> Tensor) mapping
    (Inv : World F -> Prop) (w : World F) r w' :
  (forall dl m dev w0 r0 w1,
     Inv w0 -> predict utils dl m dev w0 = (r0, w1) -> Inv w1) ->
  (forall msg w0, Inv w0 -> Inv (add_log ERROR msg w0)) ->
  Inv w ->
  create_docs fs utils directory model pca transform mapping w = (r, w') ->
  Inv w'.
Proof.
  intros Hpred Hlog Hw Hrun.
  destruct (isdir fs directory) eqn:Hdir;
    [destruct model as [m|]; [destruct pca as [p|]|]|].
  - rewrite create_docs_run in Hrun by assumption.
    destruct (listdir fs directory) as [files|e]; [|now injection Hrun as _ <-].
    assert (Hinv : forall r0 w1,
              docs_of fs utils directory m p transform mapping files w = (r0, w1) ->
              Inv w1).
    { intros r0 w1.
      apply (docs_of_invariant fs utils directory m p transform mapping Inv);
        [|assumption].
      intros file w0 rb wb Hw0 Hb. apply loop_body_inv in Hb.
      inversion Hb; subst; eauto. }
    destruct (docs_of fs utils directory m p transform mapping files w)
      as [[ds|e] w1] eqn:Hd; injection Hrun as _ <-; exact (Hinv _ _ eq_refl).
  - destruct (create_docs_early fs utils directory (Some m) None transform mapping w)
      as [msg E]; [tauto|]. rewrite E in Hrun. injection Hrun as _ <-. now apply Hlog.
  - destruct (create_docs_early fs utils directory None pca transform mapping w)
      as [msg E]; [tauto|]. rewrite E in Hrun. injection Hrun as _ <-. now apply Hlog.
  - destruct (create_docs_early fs utils directory model pca transform mapping w)
      as [msg E]; [tauto|]. rewrite E in Hrun. injection Hrun as _ <-. now apply Hlog.
Qed.

Lemma create_docs_state_only_through_predict_witness :
  device (snd (create_docs Demo.fs
                 {| predict := fun _ _ _ => ret tt;
                    label_to_vector := label_to_vector_spec |}
                 Demo.train (Some Demo.hooked) (Some Demo.pca) Demo.transform
                 label_mapping Demo.bound))
  = Some Cpu.
Proof.
  apply (create_docs_state_only_through_predict Demo.fs
           {| predict := fun _ _ _ => ret tt; label_to_vector := label_to_vector_spec |}
           Demo.train (Some Demo.hooked) (Some Demo.pca) Demo.transform label_mapping
           (fun w => device w = Some Cpu) Demo.bound
           (fst (create_docs Demo.fs
                   {| predict := fun _ _ _ => ret tt;
                      label_to_vector := label_to_vector_spec |}
                   Demo.train (Some Demo.hooked) (Some Demo.pca) Demo.transform
                   label_mapping Demo.bound))).
  - intros dl m dev w0 r0 w1 Hw0 [= _ <-]. exact Hw0.
  - intros msg w0 Hw0. exact Hw0.
  - reflexivity.
  - apply surjective_pairing.
Defined.

(** X8.  When the first forward pass leaves the buffer without rows, as it
    does on a freshly loaded module for a model on which no hook stores the
    layer output, [create_docs] ends at the first entry with the
    [ValueError] of [pca.transform]; no document is built. *)
Theorem create_docs_empty_buffer_fails
    {F Image Tensor : Type} `{FloatOps F}
    (fs : FileSystem F Image Tensor) (utils : Utils F Image Tensor)
    directory model pca (transform : Image -> Tensor) mapping (w : World F)
    file rest image dev w1 :
  isdir fs directory = true ->
  listdir fs directory = Ok (file :: rest) ->
  image_open fs (PyStr.os_path_join directory file) = Ok image ->
  device w = Some dev ->
  predict utils (make_dataloader image transform) model dev w = (Ok tt, w1) ->
  hook_features w1 = [] ->
  exists msg,
    create_docs fs utils directory (Some model) (Some pca) transform mapping w
    = (Raise (ValueError msg), w1).
Proof.
  intros Hdir Hls Hopen Hdev Hpred Hbuf.
  eexists. rewrite create_docs_run, Hls by assumption.
  cbn [docs_of]. unfold bind.
  rewrite (loop_body_intro fs utils directory model pca transform mapping file w
             (Raise (ValueError "Expected 2D array with at least 1 sample")) w1);
    [reflexivity|].
  apply steps_pca_fails with image dev; try assumption. now rewrite Hbuf.
Qed.

Lemma create_docs_empty_buffer_fails_witness :
  exists msg,
    fst (create_docs Demo.fs models_utils Demo.train (Some Demo.vgg16) (Some Demo.pca)
           Demo.transform label_mapping Demo.bound)
    = Raise (ValueError msg).
Proof.
  destruct (create_docs_empty_buffer_fails Demo.fs models_utils Demo.train
              Demo.vgg16 Demo.pca Demo.transform label_mapping Demo.bound
              "7-cat.png" ["8-ship.png"] [3; 1; 4]%Z Cpu Demo.bound
              eq_refl eq_refl eq_refl eq_refl eq_refl eq_refl) as [msg E].
  exists msg. now rewrite E.
Defined.

(** X9.  When [predict] leaves the state as it is, every document of a
    returned list carries the same embedding, the projection of what the
    buffer held before the call, and the state after the call is the state
    before it: the buffer is read, never refreshed, by [create_docs]
    itself. *)
Theorem create_docs_reuses_stale_buffer
    {F Image Tensor : Type} `{FloatOps F}
    (fs : FileSystem F Image Tensor) (utils : Utils F Image Tensor)
    directory model pca (transform : Image -> Tensor) mapping (w : World F)
    data n w' :
  (forall dl m dev w0, predict utils dl m dev w0 = (Ok tt, w0)) ->
  create_docs fs utils directory model pca transform mapping w
    = (Ok (Some data, n), w') ->
  w' = w /\
  forall doc,
    doc ∈ data ->
    exists p emb label_vec,
      pca = Some p /\
      pca_transform p (hook_features w) = Ok emb /\
      doc_features doc = np_concatenate emb label_vec.
Proof.
  intros Hinert Hrun.
  destruct (create_docs_some_inv _ _ _ _ _ _ _ _ _ _ _ Hrun)
    as (m & p & files & -> & -> & _ & _ & Hd & _).
  destruct (docs_of_Forall2 fs utils directory m p transform mapping
              (fun w0 => w0 = w)
              (fun _ d => exists emb lv,
                 pca_transform p (hook_features w) = Ok emb /\
                 doc_features d = np_concatenate emb lv)
              files w data w') as [HF Hw']; [|reflexivity|exact Hd|].
  { intros file w0 d w1 -> Hb. apply loop_body_inv in Hb.
    inversion Hb as [| | | | |image dev emb lv w2 Hopen Hdev Hpred Hpca Hlab]; subst.
    rewrite Hinert in Hpred. injection Hpred as <-.
    split; [now exists emb, lv | reflexivity]. }
  split; [assumption|].
  intros doc Hdoc. apply list_elem_of_lookup in Hdoc as [k Hk].
  destruct (Forall2_lookup_r _ _ _ _ _ HF Hk) as (file & _ & emb & lv & Hpca & Hfeat).
  now exists p, emb, lv.
Qed.

Lemma create_docs_reuses_stale_buffer_witness :
  let inert : Utils Z (list Z) (list Z) :=
    {| predict := fun _ _ _ => ret tt; label_to_vector := label_to_vector_spec |} in
  let stale := set_hook_features [[6; 14; 12]%Z] Demo.bound in
  snd (create_docs Demo.fs inert Demo.train (Some Demo.vgg16) (Some Demo.pca)
         Demo.transform label_mapping stale) = stale.
Proof.
  intros inert stale.
  let r := eval vm_compute in
    (create_docs Demo.fs inert Demo.train (Some Demo.vgg16) (Some Demo.pca)
       Demo.transform label_mapping stale) in
  match r with
  | (Ok (Some ?data, ?n), ?w') =>
    assert (Hrun : create_docs Demo.fs inert Demo.train (Some Demo.vgg16)
                     (Some Demo.pca) Demo.transform label_mapping stale
                   = (Ok (Some data, n), w')) by (vm_compute; reflexivity)
  end.
  rewrite Hrun.
  exact (proj1 (create_docs_reuses_stale_buffer Demo.fs inert Demo.train
                  (Some Demo.vgg16) (Some Demo.pca) Demo.transform label_mapping
                  stale _ _ _ (fun _ _ _ _ => eq_refl) Hrun)).
Defined.

(* ===================================================================== *)
(** ** X: the hook of [get_features] on a forward pass *)
(* ===================================================================== *)

(** X10.  After [register_forward_hook] with the hook of [get_features]
    (line 148), on a model that so far carried no other kind of hook, a
    forward pass always succeeds and leaves in [hook_features] exactly the
    output of the layer for that batch, one row per image, with [device] and
    the log untouched; the output of an earlier pass is gone, so two passes
    in a row leave what the second alone would leave. *)
Theorem get_features_keeps_last_output
    {F Tensor : Type}
    (m : Model F Tensor (World F)) (batch1 batch2 : list Tensor) (w : World F) :
  only_get_features m ->
  let hooked := register_forward_hook m (get_features tt) in
  forward hooked batch2 w
  = (Ok tt, set_hook_features (map (layer_output m) batch2) w) /\
  length (hook_features (snd (forward hooked batch2 w))) = length batch2 /\
  (forward hooked batch1 ;; forward hooked batch2) w = forward hooked batch2 w.
Proof.
  intros Hall hooked.
  assert (Hhooks : Forall (fun h => h = get_features tt) (forward_hooks hooked)).
  { cbn [hooked register_forward_hook forward_hooks].
    apply Forall_app. split; [exact Hall | now constructor]. }
  assert (Hfwd : forall batch w0,
            forward hooked batch w0
            = (Ok tt, set_hook_features (map (layer_output m) batch) w0)).
  { intros batch w0. unfold forward, modify. f_equal.
    etransitivity;
      [exact (fire_get_features (forward_hooks hooked) batch
                (map (layer_output hooked) batch) w0 Hhooks)|].
    cbn [hooked register_forward_hook forward_hooks layer_output].
    now destruct (forward_hooks m). }
  split; [apply Hfwd|]. split.
  - rewrite Hfwd. cbn. apply length_map.
  - unfold bind. now rewrite !Hfwd.
Qed.

Lemma get_features_keeps_last_output_witness :
  hook_features
    (snd ((forward Demo.hooked [[1; 2; 3]%Z] ;;
           forward Demo.hooked [[4; 5; 6]; [7; 8; 9]]%Z) initial_world))
  = [[8; 10; 12]; [14; 16; 18]]%Z.
Proof.
  destruct (get_features_keeps_last_output Demo.vgg16
              [[1; 2; 3]%Z] [[4; 5; 6]; [7; 8; 9]]%Z initial_world)
    as (Hfwd & _ & Htwice).
  - constructor.
  - change (register_forward_hook Demo.vgg16 (get_features tt)) with Demo.hooked
      in Hfwd, Htwice.
    rewrite Htwice, Hfwd. reflexivity.
Defined.

(* ===================================================================== *)
(** ** X: the [__main__] block *)
(* ===================================================================== *)

(** X11.  [main] handles no exception and decides its exit on what
    [create_docs] returned.  A failure to load the network, or else to load
    the PCA, is the outcome of [main].  When both load, [create_docs] runs
    for [static/cifar10/train] with [device] bound to the device chosen from
    [torch.cuda.is_available()] and with the buffer as found; [main] ends
    normally exactly when it returned a list and a count other than 0, ends
    with [SystemExit 1] when it returned anything else, and ends with the
    exception of [create_docs] when it raised. *)
Theorem main_outcome
    {F Image Tensor : Type} `{FloatOps F}
    (fs : FileSystem F Image Tensor) (utils : Utils F Image Tensor)
    (cuda : bool) (transform : Image -> Tensor) (w0 : World F) :
  let dev := if cuda then Cuda else Cpu in
  match load_vgg16 fs "saved-model/vgg16-weights.pth" dev with
  | Raise e => fst (main fs utils cuda transform w0) = Raise e
  | Ok m =>
    match joblib_load fs "saved-model/pca.joblib" with
    | Raise e => fst (main fs utils cuda transform w0) = Raise e
    | Ok p =>
      exists w1,
        device w1 = Some dev /\ hook_features w1 = hook_features w0 /\
        fst (main fs utils cuda transform w0)
        = match fst (create_docs fs utils "static/cifar10/train"
                       (Some (register_forward_hook m (get_features tt))) p
                       transform label_mapping w1) with
          | Ok (Some _, S _) => Ok tt
          | Ok _ => Raise (SystemExit 1)
          | Raise e => Raise e
          end
    end
  end.
Proof.
  intros dev.
  destruct (load_vgg16 fs "saved-model/vgg16-weights.pth" dev) as [m|e] eqn:Hm.
  - destruct (joblib_load fs "saved-model/pca.joblib") as [p|e] eqn:Hp.
    + destruct (main_run fs utils cuda transform w0 m p Hm Hp) as (w1 & Hd & Hb & ->).
      exists w1. split; [assumption|]. split; [assumption|].
      unfold bind.
      destruct (create_docs fs utils "static/cifar10/train"
                  (Some (register_forward_hook m (get_features tt))) p
                  transform label_mapping w1) as [[[images n]|e] w2]; [|reflexivity].
      cbn [fst]. destruct images as [data|]; [destruct n as [|n]|].
      * now rewrite check_docs_exits by now right.
      * reflexivity.
      * now rewrite check_docs_exits by now left.
    + unfold main. unfold bind at 1 2 3 4 5 6. unfold modify, logger_info, lift.
      fold dev. now rewrite Hm, Hp.
  - unfold main. unfold bind at 1 2 3 4. unfold modify, logger_info, lift.
    fold dev. now rewrite Hm.
Qed.


